(** * ansi2png: a command-line wrapper that renders ANSI art to PNG

    Shallow embedding of [ansi2png.c] and proofs about its control flow,
    its handling of the [ANSILOVE_*] environment variables and the calls it
    makes into libansilove.

    - C strings are [string]s holding the bytes before the terminating NUL;
      the libc loops below stop at a NUL byte as the C ones do.
    - The environment is a finite map from names to values; [getenv]
      returning [NULL] is [None].
    - libansilove is an arbitrary implementation of its six entry points
      over an abstract context; the macros of [ansilove.h] are parameters.
    - A run of the program yields its exit code together with the ordered
      list of the externally visible actions it performed. *)

From stdpp Require Import gmap strings list.
From Stdlib Require Import ZArith String Ascii List Bool Lia.
Import ListNotations.

Local Open Scope string_scope.
Local Open Scope Z_scope.

(** ** libc *)

Module Libc.

(** The value of a [char] read as [unsigned char]. *)
Definition byte (c : ascii) : Z := Z.of_N (N_of_ascii c).

(** [tolower] in the "C" locale (the program never calls [setlocale]). *)
Definition tolower (c : Z) : Z :=
  if (65 <=? c) && (c <=? 90) then c + 32 else c.

Definition isspace (c : Z) : bool :=
  (c =? 32) || ((9 <=? c) && (c <=? 13)).

Definition isdigit (c : Z) : bool :=
  (48 <=? c) && (c <=? 57).

(** [strcasecmp]: bytes are compared after [tolower]; the scan stops at
    the first difference or at the end of the first string. The end of a
    [string] is its terminating NUL, of value 0. *)
Fixpoint strcasecmp (s1 s2 : string) : Z :=
  match s1, s2 with
  | EmptyString, EmptyString => 0
  | EmptyString, String c2 _ => 0 - tolower (byte c2)
  | String c1 _, EmptyString => tolower (byte c1) - 0
  | String c1 r1, String c2 r2 =>
      let result := tolower (byte c1) - tolower (byte c2) in
      if result =? 0
      then if byte c1 =? 0 then 0 else strcasecmp r1 r2
      else result
  end.

(** [strcmp]: the same scan on the bytes themselves. *)
Fixpoint strcmp (s1 s2 : string) : Z :=
  match s1, s2 with
  | EmptyString, EmptyString => 0
  | EmptyString, String c2 _ => 0 - byte c2
  | String c1 _, EmptyString => byte c1 - 0
  | String c1 r1, String c2 r2 =>
      let result := byte c1 - byte c2 in
      if result =? 0
      then if byte c1 =? 0 then 0 else strcmp r1 r2
      else result
  end.

(** Integer conversions. [long] is 64 bits wide, [int] 32 bits;
    narrowing conversions wrap around. *)
Definition LONG_MAX : Z := 2 ^ 63 - 1.
Definition LONG_MIN : Z := - 2 ^ 63.
Definition INT_MAX : Z := 2 ^ 31 - 1.
Definition INT_MIN : Z := - 2 ^ 31.

Definition to_int (x : Z) : Z := (x + 2 ^ 31) mod 2 ^ 32 - 2 ^ 31.
Definition to_int16_t (x : Z) : Z := (x + 2 ^ 15) mod 2 ^ 16 - 2 ^ 15.
Definition to_uint8_t (x : Z) : Z := x mod 2 ^ 8.

Fixpoint skip_spaces (s : string) : string :=
  match s with
  | String c r => if isspace (byte c) then skip_spaces r else s
  | EmptyString => s
  end.

(** The sign in front of the digits, and the text after it. *)
Definition take_sign (s : string) : bool * string :=
  match s with
  | String c r =>
      if byte c =? 45 then (true, r)
      else if byte c =? 43 then (false, r)
      else (false, s)
  | EmptyString => (false, s)
  end.

(** The value of the longest prefix of decimal digits, from [acc]. *)
Fixpoint digits (acc : Z) (s : string) : Z :=
  match s with
  | String c r =>
      if isdigit (byte c) then digits (10 * acc + (byte c - 48)) r else acc
  | EmptyString => acc
  end.

(** The number a text starts with: white space, an optional sign, decimal
    digits; whatever follows is ignored, and no digit at all gives 0. *)
Definition parse_decimal (s : string) : Z :=
  let (negative, r) := take_sign (skip_spaces s) in
  let v := digits 0 r in
  if negative then - v else v.

(** [strtol (s, NULL, 10)]: the parsed number, clamped to [long]. *)
Definition strtol (s : string) : Z :=
  Z.max LONG_MIN (Z.min LONG_MAX (parse_decimal s)).

(** [atoi (s)] is [(int) strtol (s, NULL, 10)]. C defines the result only
    when the number fits an [int]; outside that range this is what glibc
    computes. *)
Definition atoi (s : string) : Z := to_int (strtol s).

(** A text whose numeric prefix is empty: after white space and an
    optional sign it does not continue with a decimal digit. *)
Definition non_numeric (s : string) : bool :=
  match snd (take_sign (skip_spaces s)) with
  | String c _ => negb (isdigit (byte c))
  | EmptyString => true
  end.

(** A [string] that holds no NUL byte: any C string is one. *)
Fixpoint cstring_ok (s : string) : bool :=
  match s with
  | String c r => negb (byte c =? 0) && cstring_ok r
  | EmptyString => true
  end.

(** The bytes of a C string after [tolower], up to its end: two strings
    differ in letter case only when these agree. *)
Fixpoint casefold (s : string) : list Z :=
  match s with
  | String c r =>
      if byte c =? 0 then [] else tolower (byte c) :: casefold r
  | EmptyString => []
  end.

End Libc.
Export Libc.

(** The line feed that ends each [fprintf] format of the program. *)
Definition LF : string := String (ascii_of_nat 10) EmptyString.

(** ** ansilove.h *)

(** Modelled from the spec: [struct ansilove_options] is declared in
    [ansilove.h], which the repository does not contain. These are the
    fields of RenderOptions, the ones [main] assigns, at the widths [main]
    casts to. *)
Record ansilove_options : Type := mk_options {
  font : Z;          (* uint8_t *)
  scale_factor : Z;  (* uint8_t *)
  bits : Z;          (* uint8_t *)
  columns : Z;       (* int16_t *)
  mode : Z;          (* uint8_t *)
  icecolors : bool
}.

(** The font and mode macros of [ansilove.h], as the [uint8_t] values
    they stand for. Their numbers are not fixed here. *)
Record ansilove_h : Type := mk_header {
  ANSILOVE_FONT_CP437 : Z;
  ANSILOVE_FONT_CP437_80x50 : Z;
  ANSILOVE_FONT_CP737 : Z;
  ANSILOVE_FONT_CP775 : Z;
  ANSILOVE_FONT_CP850 : Z;
  ANSILOVE_FONT_CP852 : Z;
  ANSILOVE_FONT_CP855 : Z;
  ANSILOVE_FONT_CP857 : Z;
  ANSILOVE_FONT_CP860 : Z;
  ANSILOVE_FONT_CP861 : Z;
  ANSILOVE_FONT_CP862 : Z;
  ANSILOVE_FONT_CP863 : Z;
  ANSILOVE_FONT_CP865 : Z;
  ANSILOVE_FONT_CP866 : Z;
  ANSILOVE_FONT_CP869 : Z;
  ANSILOVE_FONT_TERMINUS : Z;
  ANSILOVE_FONT_SPLEEN : Z;
  ANSILOVE_FONT_MICROKNIGHT : Z;
  ANSILOVE_FONT_MICROKNIGHT_PLUS : Z;
  ANSILOVE_FONT_MOSOUL : Z;
  ANSILOVE_FONT_POT_NOODLE : Z;
  ANSILOVE_FONT_TOPAZ : Z;
  ANSILOVE_FONT_TOPAZ_PLUS : Z;
  ANSILOVE_FONT_TOPAZ500 : Z;
  ANSILOVE_FONT_TOPAZ500_PLUS : Z;
  ANSILOVE_MODE_CED : Z;
  ANSILOVE_MODE_TRANSPARENT : Z;
  ANSILOVE_MODE_WORKBENCH : Z
}.

(** The library: any implementation of the entry points [main] calls.
    Each one takes the context (and the options) by pointer, so it returns
    them next to its [int] result. *)
Record libansilove : Type := mk_lib {
  ansilove_ctx : Type;
  ansilove_init :
    ansilove_ctx -> ansilove_options -> Z * ansilove_ctx * ansilove_options;
  ansilove_loadfile : ansilove_ctx -> string -> Z * ansilove_ctx;
  ansilove_ansi :
    ansilove_ctx -> ansilove_options -> Z * ansilove_ctx * ansilove_options;
  ansilove_savefile : ansilove_ctx -> string -> Z * ansilove_ctx;
  ansilove_error : ansilove_ctx -> string;
  ansilove_clean : ansilove_ctx -> Z * ansilove_ctx
}.

(** ** What a run does *)

Inductive stream : Type := stdout | stderr.

(** The actions of a run that are visible from outside: text written to a
    standard stream, and calls into the library with their arguments and
    results. *)
Inductive event : Type :=
| Fprintf (f : stream) (text : string)
| Init (result : Z)
| Loadfile (path : string) (result : Z)
| Ansi (opts : ansilove_options) (result : Z)
| Savefile (path : string) (result : Z)
| Error (message : string)
| Clean.

Definition is_clean (e : event) : bool :=
  match e with Clean => true | _ => false end.

Definition is_library_call (e : event) : bool :=
  match e with Fprintf _ _ => false | _ => true end.

Definition writes_stdout (e : event) : bool :=
  match e with Fprintf stdout _ => true | _ => false end.

Definition is_fprintf (e : event) : bool :=
  match e with Fprintf _ _ => true | _ => false end.

(** The paths a run hands to the library for writing. *)
Fixpoint files_written (t : list event) : list string :=
  match t with
  | Savefile path _ :: r => path :: files_written r
  | _ :: r => files_written r
  | [] => []
  end.

(** The paths a run hands to the library at all. *)
Fixpoint files_touched (t : list event) : list string :=
  match t with
  | Loadfile path _ :: r => path :: files_touched r
  | Savefile path _ :: r => path :: files_touched r
  | _ :: r => files_touched r
  | [] => []
  end.

Definition count_clean (t : list event) : nat :=
  List.length (List.filter is_clean t).

(** The pipeline stages after [ansilove_init]. *)
Inductive stage : Type := Load | Render | Save.

Definition stage_name (s : stage) : string :=
  match s with Load => "load" | Render => "render" | Save => "save" end.

(** The line [main] prints when a stage fails. *)
Definition diagnostic (s : stage) (message : string) : string :=
  "ansi2png: " ++ stage_name s ++ " failed: " ++ message ++ LF.

(** The line [lookup_font] prints for a name it does not know. *)
Definition font_warning (name : string) : string :=
  "ansi2png: unknown font '" ++ name ++ "', using CP437" ++ LF.

(** The call of a stage, as it shows in a trace. *)
Definition stage_call (s : stage) (e : event) (result : Z) : Prop :=
  match s with
  | Load => exists path, e = Loadfile path result
  | Render => exists opts, e = Ansi opts result
  | Save => exists path, e = Savefile path result
  end.

Definition calls_stage (s : stage) (e : event) : bool :=
  match s, e with
  | Load, Loadfile _ _ | Render, Ansi _ _ | Save, Savefile _ _ => true
  | _, _ => false
  end.

Definition stage_index (s : stage) : nat :=
  match s with Load => 0 | Render => 1 | Save => 2 end.

(** ** The program *)

(** [struct font_entry]. *)
Record font_entry : Type := mk_font_entry {
  name : string;
  value : Z
}.

(** [getenv]: the value of a variable, [None] for [NULL]. *)
Definition getenv (environ : gmap string string) (var : string)
  : option string :=
  environ !! var.

(** Every value of the environment is a C string. *)
Definition environ_ok (environ : gmap string string) : Prop :=
  forall var val, environ !! var = Some val -> cstring_ok val = true.

(** Assignments to the fields of [options]. *)
Definition set_font (v : Z) (o : ansilove_options) : ansilove_options :=
  mk_options v (scale_factor o) (bits o) (columns o) (mode o) (icecolors o).
Definition set_scale_factor (v : Z) (o : ansilove_options) : ansilove_options :=
  mk_options (font o) v (bits o) (columns o) (mode o) (icecolors o).
Definition set_bits (v : Z) (o : ansilove_options) : ansilove_options :=
  mk_options (font o) (scale_factor o) v (columns o) (mode o) (icecolors o).
Definition set_columns (v : Z) (o : ansilove_options) : ansilove_options :=
  mk_options (font o) (scale_factor o) (bits o) v (mode o) (icecolors o).
Definition set_mode (v : Z) (o : ansilove_options) : ansilove_options :=
  mk_options (font o) (scale_factor o) (bits o) (columns o) v (icecolors o).
Definition set_icecolors (v : bool) (o : ansilove_options) : ansilove_options :=
  mk_options (font o) (scale_factor o) (bits o) (columns o) (mode o) v.

Section Program.

Variable hdr : ansilove_h.
Variable lib : libansilove.

(** The two locals of [main] that are passed by pointer. *)
Record locals : Type := mk_locals {
  ctx : ansilove_ctx lib;
  options : ansilove_options
}.

(** A computation reads and updates the locals, and yields a result and
    the actions it performed, oldest first. *)
Definition M (A : Type) : Type := locals -> A * locals * list event.

Definition ret {A : Type} (a : A) : M A := fun l => (a, l, []).

Definition bind {A B : Type} (m : M A) (k : A -> M B) : M B :=
  fun l =>
    let '(a, l1, t1) := m l in
    let '(b, l2, t2) := k a l1 in
    (b, l2, (t1 ++ t2)%list).

Notation "x <- m ;; k" := (bind m (fun x => k))
  (at level 100, m at next level, right associativity).
Notation "m ;; k" := (bind m (fun _ => k))
  (at level 100, right associativity).

Definition fprintf (f : stream) (text : string) : M unit :=
  fun l => (tt, l, [Fprintf f text]).

(** [options.field = v]. *)
Definition assign (f : ansilove_options -> ansilove_options) : M unit :=
  fun l => (tt, mk_locals (ctx l) (f (options l)), []).

(** The calls into the library, on [&ctx] and [&options]. *)
Definition call_init : M Z :=
  fun l =>
    let '(r, c, o) := ansilove_init lib (ctx l) (options l) in
    (r, mk_locals c o, [Init r]).

Definition call_loadfile (path : string) : M Z :=
  fun l =>
    let '(r, c) := ansilove_loadfile lib (ctx l) path in
    (r, mk_locals c (options l), [Loadfile path r]).

Definition call_ansi : M Z :=
  fun l =>
    let '(r, c, o) := ansilove_ansi lib (ctx l) (options l) in
    (r, mk_locals c o, [Ansi (options l) r]).

Definition call_savefile (path : string) : M Z :=
  fun l =>
    let '(r, c) := ansilove_savefile lib (ctx l) path in
    (r, mk_locals c (options l), [Savefile path r]).

Definition call_error : M string :=
  fun l =>
    (ansilove_error lib (ctx l), l, [Error (ansilove_error lib (ctx l))]).

Definition call_clean : M unit :=
  fun l =>
    let '(_, c) := ansilove_clean lib (ctx l) in
    (tt, mk_locals c (options l), [Clean]).

(** [font_map], without its [{ NULL, 0 }] sentinel: the end of the list
    stands for it. *)
Definition font_map : list font_entry := [
  mk_font_entry "CP437"            (ANSILOVE_FONT_CP437 hdr);
  mk_font_entry "CP437_80x50"      (ANSILOVE_FONT_CP437_80x50 hdr);
  mk_font_entry "CP737"            (ANSILOVE_FONT_CP737 hdr);
  mk_font_entry "CP775"            (ANSILOVE_FONT_CP775 hdr);
  mk_font_entry "CP850"            (ANSILOVE_FONT_CP850 hdr);
  mk_font_entry "CP852"            (ANSILOVE_FONT_CP852 hdr);
  mk_font_entry "CP855"            (ANSILOVE_FONT_CP855 hdr);
  mk_font_entry "CP857"            (ANSILOVE_FONT_CP857 hdr);
  mk_font_entry "CP860"            (ANSILOVE_FONT_CP860 hdr);
  mk_font_entry "CP861"            (ANSILOVE_FONT_CP861 hdr);
  mk_font_entry "CP862"            (ANSILOVE_FONT_CP862 hdr);
  mk_font_entry "CP863"            (ANSILOVE_FONT_CP863 hdr);
  mk_font_entry "CP865"            (ANSILOVE_FONT_CP865 hdr);
  mk_font_entry "CP866"            (ANSILOVE_FONT_CP866 hdr);
  mk_font_entry "CP869"            (ANSILOVE_FONT_CP869 hdr);
  mk_font_entry "TERMINUS"         (ANSILOVE_FONT_TERMINUS hdr);
  mk_font_entry "SPLEEN"           (ANSILOVE_FONT_SPLEEN hdr);
  mk_font_entry "MICROKNIGHT"      (ANSILOVE_FONT_MICROKNIGHT hdr);
  mk_font_entry "MICROKNIGHT_PLUS" (ANSILOVE_FONT_MICROKNIGHT_PLUS hdr);
  mk_font_entry "MOSOUL"           (ANSILOVE_FONT_MOSOUL hdr);
  mk_font_entry "POT_NOODLE"       (ANSILOVE_FONT_POT_NOODLE hdr);
  mk_font_entry "TOPAZ"            (ANSILOVE_FONT_TOPAZ hdr);
  mk_font_entry "TOPAZ_PLUS"       (ANSILOVE_FONT_TOPAZ_PLUS hdr);
  mk_font_entry "TOPAZ500"         (ANSILOVE_FONT_TOPAZ500 hdr);
  mk_font_entry "TOPAZ500_PLUS"    (ANSILOVE_FONT_TOPAZ500_PLUS hdr)
].

(** The [for] loop of [lookup_font] over the entries from index [i] on:
    the value of the first entry whose name compares equal, [None] when
    the loop reaches the sentinel. *)
Fixpoint font_map_scan (nm : string) (entries : list font_entry)
  : option Z :=
  match entries with
  | e :: rest =>
      if strcasecmp nm (name e) =? 0 then Some (value e)
      else font_map_scan nm rest
  | [] => None
  end.

(** [lookup_font] sees none of the locals of [main]: it yields the font
    and what it printed. *)
Definition lookup_font (nm : option string) : Z * list event :=
  match nm with
  | None => (ANSILOVE_FONT_CP437 hdr, [])
  | Some nm =>
      match font_map_scan nm font_map with
      | Some v => (v, [])
      | None =>
          (ANSILOVE_FONT_CP437 hdr,
           [Fprintf stderr
              ("ansi2png: unknown font '" ++ nm ++ "', using CP437" ++ LF)])
      end
  end.

(** A call of a function that leaves the locals alone. *)
Definition call {A : Type} (p : A * list event) : M A :=
  fun l => (fst p, l, snd p).

(** [argc] and [argv[i]] of an argument vector. *)
Definition argc (argv : list string) : Z := Z.of_nat (List.length argv).
Definition arg (argv : list string) (i : nat) : string := nth i argv "".

(** Lines 89 to 115 of [main]: the options taken from the environment. *)
Definition env_options (environ : gmap string string) : M unit :=
  v <- call (lookup_font (getenv environ "ANSILOVE_FONT")) ;;
  assign (set_font v) ;;
  match getenv environ "ANSILOVE_SCALE" with
  | Some val => assign (set_scale_factor (to_uint8_t (atoi val)))
  | None => ret tt
  end ;;
  match getenv environ "ANSILOVE_BITS" with
  | Some val => assign (set_bits (to_uint8_t (atoi val)))
  | None => ret tt
  end ;;
  match getenv environ "ANSILOVE_COLUMNS" with
  | Some val => assign (set_columns (to_int16_t (atoi val)))
  | None => ret tt
  end ;;
  match getenv environ "ANSILOVE_MODE" with
  | Some val =>
      if strcasecmp val "ced" =? 0 then
        assign (set_mode (ANSILOVE_MODE_CED hdr))
      else if strcasecmp val "transparent" =? 0 then
        assign (set_mode (ANSILOVE_MODE_TRANSPARENT hdr))
      else if strcasecmp val "workbench" =? 0 then
        assign (set_mode (ANSILOVE_MODE_WORKBENCH hdr))
      else ret tt
  | None => ret tt
  end ;;
  match getenv environ "ANSILOVE_ICECOLORS" with
  | Some val =>
      if strcmp val "1" =? 0 then assign (set_icecolors true) else ret tt
  | None => ret tt
  end.

(** Lines 117 to 139 of [main]: load, render, save, release. *)
Definition pipeline (argv : list string) : M Z :=
  r <- call_loadfile (arg argv 1) ;;
  if r =? -1 then
    msg <- call_error ;;
    fprintf stderr ("ansi2png: load failed: " ++ msg ++ LF) ;;
    call_clean ;;
    ret 1
  else
    r <- call_ansi ;;
    if r =? -1 then
      msg <- call_error ;;
      fprintf stderr ("ansi2png: render failed: " ++ msg ++ LF) ;;
      call_clean ;;
      ret 1
    else
      r <- call_savefile (arg argv 2) ;;
      if r =? -1 then
        msg <- call_error ;;
        fprintf stderr ("ansi2png: save failed: " ++ msg ++ LF) ;;
        call_clean ;;
        ret 1
      else
        call_clean ;;
        ret 0.

Definition main (environ : gmap string string) (argv : list string) : M Z :=
  if negb (argc argv =? 3) then
    fprintf stderr ("usage: ansi2png INPUT OUTPUT.png" ++ LF) ;;
    ret 1
  else
    r <- call_init ;;
    if r =? -1 then
      fprintf stderr ("ansi2png: init failed" ++ LF) ;;
      ret 1
    else
      env_options environ ;;
      pipeline argv.

(** The exit code of a run and what it did, from the locals as they are
    when [main] starts (uninitialised, so arbitrary). *)
Definition exit_code (environ : gmap string string) (argv : list string)
    (l0 : locals) : Z :=
  fst (fst (main environ argv l0)).

Definition trace (environ : gmap string string) (argv : list string)
    (l0 : locals) : list event :=
  snd (main environ argv l0).

(** What [ansilove_init] returns at line 84, and the locals it leaves. *)
Definition init_result (l0 : locals) : Z := fst (fst (call_init l0)).
Definition after_init (l0 : locals) : locals := snd (fst (call_init l0)).

(** The options at the end of lines 89 to 115. *)
Definition resolved (environ : gmap string string) (l : locals)
  : ansilove_options :=
  options (snd (fst (env_options environ l))).

End Program.

Arguments ctx {lib} _.
Arguments options {lib} _.
Arguments mk_locals {lib} _ _.

(** ** Reading a trace *)

(** [ansilove_init] was called and did not return -1. *)
Definition init_succeeded (t : list event) : Prop :=
  exists r, In (Init r) t /\ r <> -1.

(** The call of stage [s] was made and did not return -1. *)
Definition stage_succeeded (s : stage) (t : list event) : Prop :=
  exists e r, In e t /\ stage_call s e r /\ r <> -1.

(** ** The ways a run can go *)

(** Lines 117 to 139, by the first call that returns -1: what [main]
    returns and what it does, given the options [o] it starts with. *)
Inductive pipeline_outcome (argv : list string) (o : ansilove_options)
  : Z -> list event -> Prop :=
| load_failed (m : string) :
    pipeline_outcome argv o 1
      [Loadfile (arg argv 1) (-1); Error m;
       Fprintf stderr (diagnostic Load m); Clean]
| render_failed (r1 : Z) (m : string) :
    r1 <> -1 ->
    pipeline_outcome argv o 1
      [Loadfile (arg argv 1) r1; Ansi o (-1); Error m;
       Fprintf stderr (diagnostic Render m); Clean]
| save_failed (r1 r2 : Z) (m : string) :
    r1 <> -1 -> r2 <> -1 ->
    pipeline_outcome argv o 1
      [Loadfile (arg argv 1) r1; Ansi o r2; Savefile (arg argv 2) (-1);
       Error m; Fprintf stderr (diagnostic Save m); Clean]
| all_succeeded (r1 r2 r3 : Z) :
    r1 <> -1 -> r2 <> -1 -> r3 <> -1 ->
    pipeline_outcome argv o 0
      [Loadfile (arg argv 1) r1; Ansi o r2; Savefile (arg argv 2) r3; Clean].

(** The whole of [main]: [r0] is the result of [ansilove_init], [w] what
    the font lookup prints and [o] the options after lines 89 to 115. *)
Inductive main_outcome (argv : list string) (r0 : Z) (w : list event)
    (o : ansilove_options) : Z -> list event -> Prop :=
| usage_error :
    argc argv <> 3 ->
    main_outcome argv r0 w o 1
      [Fprintf stderr ("usage: ansi2png INPUT OUTPUT.png" ++ LF)]
| init_failed :
    argc argv = 3 -> r0 = -1 ->
    main_outcome argv r0 w o 1
      [Init r0; Fprintf stderr ("ansi2png: init failed" ++ LF)]
| pipeline_ran (code : Z) (t : list event) :
    argc argv = 3 -> r0 <> -1 ->
    pipeline_outcome argv o code t ->
    main_outcome argv r0 w o code (Init r0 :: w ++ t)%list.

(** ** A library to run the program on *)

Module Sample.

(** Numbers for the macros. *)
Definition header : ansilove_h :=
  mk_header 1 2 3 4 5 6 7 8 9 10 11 12 13 14 15 20 21
            30 31 32 33 34 35 36 37 1 2 3.

(** A context that holds the last error: 0 for none. *)
Definition defaults : ansilove_options := mk_options 0 0 8 0 0 false.

Definition error_text (c : Z) : string :=
  if c =? 0 then "No error."
  else if c =? 3 then "File error."
  else if c =? 4 then "Value out of allowed range."
  else "Unknown error.".

(** Loading fails on the path [missing.ans], rendering on a negative
    column count, saving on the empty path. *)
Definition library : libansilove := {|
  ansilove_ctx := Z;
  ansilove_init := fun _ _ => (0, 0, defaults);
  ansilove_loadfile := fun c path =>
    if String.eqb path "missing.ans" then (-1, 3) else (0, c);
  ansilove_ansi := fun c o =>
    if columns o <? 0 then (-1, 4, o) else (0, c, o);
  ansilove_savefile := fun c path =>
    if String.eqb path "" then (-1, 3) else (0, c);
  ansilove_error := error_text;
  ansilove_clean := fun _ => (0, 0)
|}.

(** A library whose [ansilove_init] fails. *)
Definition broken : libansilove := {|
  ansilove_ctx := Z;
  ansilove_init := fun c o => (-1, c, o);
  ansilove_loadfile := fun c _ => (0, c);
  ansilove_ansi := fun c o => (0, c, o);
  ansilove_savefile := fun c _ => (0, c);
  ansilove_error := error_text;
  ansilove_clean := fun _ => (0, 0)
|}.

(** The locals before [ansilove_init], holding whatever the stack held. *)
Definition stack : locals library :=
  mk_locals (lib := library) 77 (mk_options 9 9 9 9 9 true).

Definition broken_stack : locals broken :=
  mk_locals (lib := broken) 77 (mk_options 9 9 9 9 9 true).

Definition argv : list string := ["ansi2png"; "art.ans"; "art.png"].

(** An environment that sets every variable to something the program
    knows. *)
Definition environ : gmap string string :=
  <["ANSILOVE_FONT" := "topaz"]>
    (<["ANSILOVE_SCALE" := "256"]>
       (<["ANSILOVE_BITS" := "9"]>
          (<["ANSILOVE_COLUMNS" := "160"]>
             (<["ANSILOVE_MODE" := "CeD"]>
                (<["ANSILOVE_ICECOLORS" := "1"]> ∅))))).

(** One that sets the font and the mode to what it does not know, and
    the numbers to text. *)
Definition garbled : gmap string string :=
  <["ANSILOVE_FONT" := "topaz9"]>
    (<["ANSILOVE_SCALE" := "big"]>
       (<["ANSILOVE_COLUMNS" := "-70000"]>
          (<["ANSILOVE_MODE" := "bogus"]>
             (<["ANSILOVE_ICECOLORS" := "true"]> ∅)))).

(** One with the empty font name. *)
Definition unnamed : gmap string string :=
  <["ANSILOVE_FONT" := ""]> ∅.

(** One that sets a single variable. *)
Definition only (var val : string) : gmap string string :=
  <[var := val]> ∅.

(** The options the sample library hands to lines 89 to 115, and what
    they become. *)
Definition configured (environ : gmap string string) : ansilove_options :=
  resolved header library environ (after_init library stack).

End Sample.

(** ** The calls and the variables of a run *)

(** The entry point behind a library call. *)
Inductive call_kind : Type :=
| init_call | loadfile_call | ansi_call | savefile_call
| error_call | clean_call.

Definition kind_of (e : event) : option call_kind :=
  match e with
  | Fprintf _ _ => None
  | Init _ => Some init_call
  | Loadfile _ _ => Some loadfile_call
  | Ansi _ _ => Some ansi_call
  | Savefile _ _ => Some savefile_call
  | Error _ => Some error_call
  | Clean => Some clean_call
  end.

(** The entry points a run goes through, in order. *)
Fixpoint library_calls (t : list event) : list call_kind :=
  match t with
  | e :: r =>
      match kind_of e with
      | Some k => k :: library_calls r
      | None => library_calls r
      end
  | [] => []
  end.

(** What a run prints, in order. *)
Definition printed (t : list event) : list event :=
  List.filter is_fprintf t.

(** The names [main] passes to [getenv]. *)
Definition variables : list string :=
  ["ANSILOVE_FONT"; "ANSILOVE_SCALE"; "ANSILOVE_BITS"; "ANSILOVE_COLUMNS";
   "ANSILOVE_MODE"; "ANSILOVE_ICECOLORS"].

(** ** Facts about the libc functions *)

Section LibcFacts.

Lemma byte_range (c : ascii) : 0 <= byte c < 256.
Proof.
  unfold byte. pose proof (N_ascii_bounded c) as Hb. lia.
Qed.

Lemma byte_inj (c1 c2 : ascii) : byte c1 = byte c2 -> c1 = c2.
Proof.
  unfold byte. intros Heq. apply Z2N.inj_iff in Heq; try lia.
  rewrite !N2Z.id in Heq.
  rewrite <- (ascii_N_embedding c1), <- (ascii_N_embedding c2).
  now rewrite Heq.
Qed.

Lemma tolower_zero (c : Z) : tolower c = 0 <-> c = 0.
Proof.
  unfold tolower.
  destruct (65 <=? c) eqn:E1; destruct (c <=? 90) eqn:E2; simpl; lia.
Qed.

(** [strcasecmp] returns 0 exactly on strings that differ in letter case
    only. *)
Lemma strcasecmp_casefold (s t : string) :
  strcasecmp s t = 0 <-> casefold s = casefold t.
Proof.
  revert t. induction s as [|c1 r1 IH]; intros [|c2 r2]; simpl.
  - tauto.
  - pose proof (tolower_zero (byte c2)) as Hz.
    destruct (byte c2 =? 0) eqn:E.
    + apply Z.eqb_eq in E. split; [reflexivity | lia].
    + apply Z.eqb_neq in E. split; [lia | discriminate].
  - pose proof (tolower_zero (byte c1)) as Hz.
    destruct (byte c1 =? 0) eqn:E.
    + apply Z.eqb_eq in E. split; [reflexivity | lia].
    + apply Z.eqb_neq in E. split; [lia | discriminate].
  - pose proof (tolower_zero (byte c1)) as Hz1.
    pose proof (tolower_zero (byte c2)) as Hz2.
    destruct (tolower (byte c1) - tolower (byte c2) =? 0) eqn:Ed;
      [apply Z.eqb_eq in Ed | apply Z.eqb_neq in Ed];
      (destruct (byte c1 =? 0) eqn:E1;
        [apply Z.eqb_eq in E1 | apply Z.eqb_neq in E1]);
      (destruct (byte c2 =? 0) eqn:E2;
        [apply Z.eqb_eq in E2 | apply Z.eqb_neq in E2]).
    + tauto.
    + lia.
    + lia.
    + rewrite IH. split.
      * intros ->. f_equal. lia.
      * intros Hc. now inversion Hc.
    + lia.
    + split; [lia | discriminate].
    + split; [lia | discriminate].
    + split; [lia | intros Hc; inversion Hc; lia].
Qed.

Lemma strcasecmp_eqb_casefold (s t u : string) :
  casefold s = casefold t ->
  (strcasecmp s u =? 0) = (strcasecmp t u =? 0).
Proof.
  intros Hst.
  destruct (strcasecmp s u =? 0) eqn:Es; symmetry.
  - apply Z.eqb_eq. apply Z.eqb_eq in Es.
    apply strcasecmp_casefold. apply strcasecmp_casefold in Es. congruence.
  - apply Z.eqb_neq. apply Z.eqb_neq in Es.
    rewrite strcasecmp_casefold in *. congruence.
Qed.

(** On C strings [strcmp] returns 0 exactly on equal strings. *)
Lemma strcmp_eq (s t : string) :
  cstring_ok s = true -> cstring_ok t = true ->
  (strcmp s t = 0 <-> s = t).
Proof.
  revert t. induction s as [|c1 r1 IH]; intros [|c2 r2]; simpl.
  - tauto.
  - intros _ Hok. apply andb_true_iff in Hok as [Hn _].
    apply negb_true_iff, Z.eqb_neq in Hn. split; [lia | discriminate].
  - intros Hok _. apply andb_true_iff in Hok as [Hn _].
    apply negb_true_iff, Z.eqb_neq in Hn. split; [lia | discriminate].
  - intros Hok1 Hok2.
    apply andb_true_iff in Hok1 as [Hn1 Hr1].
    apply andb_true_iff in Hok2 as [Hn2 Hr2].
    apply negb_true_iff in Hn1. rewrite Hn1.
    destruct (byte c1 - byte c2 =? 0) eqn:Ed.
    + apply Z.eqb_eq in Ed. rewrite (IH r2 Hr1 Hr2). split.
      * intros ->. f_equal. apply byte_inj. lia.
      * intros Hc. now inversion Hc.
    + apply Z.eqb_neq in Ed. split; [lia |].
      intros Hc. inversion Hc. subst. lia.
Qed.

Lemma to_uint8_t_range (x : Z) : 0 <= to_uint8_t x < 256.
Proof. unfold to_uint8_t. apply Z.mod_pos_bound. lia. Qed.

Lemma to_int16_t_range (x : Z) : - 32768 <= to_int16_t x < 32768.
Proof.
  unfold to_int16_t.
  pose proof (Z.mod_pos_bound (x + 2 ^ 15) (2 ^ 16) ltac:(lia)). lia.
Qed.

Lemma to_int16_t_congr (x : Z) : (to_int16_t x) mod 2 ^ 16 = x mod 2 ^ 16.
Proof.
  unfold to_int16_t.
  rewrite Zminus_mod, Zmod_mod, <- Zminus_mod. f_equal. lia.
Qed.

Lemma to_int_id (x : Z) : INT_MIN <= x <= INT_MAX -> to_int x = x.
Proof.
  unfold to_int, INT_MIN, INT_MAX. intros Hx.
  rewrite Z.mod_small; lia.
Qed.

Lemma atoi_in_range (s : string) :
  INT_MIN <= parse_decimal s <= INT_MAX -> atoi s = parse_decimal s.
Proof.
  intros Hr. unfold atoi, strtol.
  assert (Hl : LONG_MIN <= parse_decimal s <= LONG_MAX)
    by (unfold LONG_MIN, LONG_MAX, INT_MIN, INT_MAX in *; lia).
  rewrite Z.min_r, Z.max_r by lia.
  now apply to_int_id.
Qed.

Lemma parse_decimal_non_numeric (s : string) :
  non_numeric s = true -> parse_decimal s = 0.
Proof.
  unfold non_numeric, parse_decimal.
  destruct (take_sign (skip_spaces s)) as [negative r]. simpl.
  destruct r as [|c r]; simpl.
  - now destruct negative.
  - intros Hd. apply negb_true_iff in Hd. rewrite Hd. now destruct negative.
Qed.

Lemma atoi_non_numeric (s : string) : non_numeric s = true -> atoi s = 0.
Proof.
  intros Hn. rewrite atoi_in_range; rewrite (parse_decimal_non_numeric s Hn).
  - reflexivity.
  - unfold INT_MIN, INT_MAX. lia.
Qed.

End LibcFacts.

(** ** Facts about the font table and the environment block *)

Section ProgramFacts.

Variable hdr : ansilove_h.
Variable lib : libansilove.

Lemma font_map_scan_casefold (s t : string) (entries : list font_entry) :
  casefold s = casefold t ->
  font_map_scan s entries = font_map_scan t entries.
Proof.
  intros Hst. induction entries as [|e rest IH]; simpl; [reflexivity |].
  rewrite (strcasecmp_eqb_casefold s t (name e) Hst). now rewrite IH.
Qed.

Lemma font_map_scan_None (nm : string) (entries : list font_entry) :
  font_map_scan nm entries = None <->
  (forall e, In e entries -> casefold nm <> casefold (name e)).
Proof.
  induction entries as [|e rest IH]; simpl.
  - split; [intros _ e [] | reflexivity].
  - destruct (strcasecmp nm (name e) =? 0) eqn:E.
    + apply Z.eqb_eq, strcasecmp_casefold in E. split; [discriminate |].
      intros Hall. exfalso. apply (Hall e); [now left | exact E].
    + apply Z.eqb_neq in E. rewrite strcasecmp_casefold in E.
      rewrite IH. split.
      * intros Hall e' [<- | Hin]; [exact E | now apply Hall].
      * intros Hall e' Hin. apply Hall. now right.
Qed.

(** Either some entry has the name up to letter case, or none has. *)
Lemma classic_scan (nm : string) (entries : list font_entry) :
  (exists e, In e entries /\ casefold nm = casefold (name e)) \/
  (forall e, In e entries -> casefold nm <> casefold (name e)).
Proof.
  induction entries as [|e0 rest IH].
  - right. intros e [].
  - destruct (list_eq_dec Z.eq_dec (casefold nm) (casefold (name e0)))
      as [Heq | Hne].
    + left. exists e0. split; [now left | exact Heq].
    + destruct IH as [(e & Hin & Hc) | Hno].
      * left. exists e. split; [now right | exact Hc].
      * right. intros e [<- | Hin]; [exact Hne | now apply Hno].
Qed.

(** No two names of the table differ in letter case only: the scan for
    the name of an entry stops at that entry. *)
Lemma font_map_scan_entry (e : font_entry) :
  In e (font_map hdr) ->
  font_map_scan (name e) (font_map hdr) = Some (value e).
Proof.
  unfold font_map. intros Hin.
  repeat (destruct Hin as [<- | Hin]; [vm_compute; reflexivity |]).
  destruct Hin.
Qed.

Lemma lookup_font_known (e : font_entry) (s : string) :
  In e (font_map hdr) -> casefold s = casefold (name e) ->
  lookup_font hdr (Some s) = (value e, []).
Proof.
  intros Hin Hs. unfold lookup_font.
  rewrite (font_map_scan_casefold s (name e) _ Hs).
  now rewrite (font_map_scan_entry e Hin).
Qed.

Lemma lookup_font_unknown (s : string) :
  (forall e, In e (font_map hdr) -> casefold s <> casefold (name e)) ->
  lookup_font hdr (Some s) =
    (ANSILOVE_FONT_CP437 hdr, [Fprintf stderr (font_warning s)]).
Proof.
  intros Hall. unfold lookup_font.
  apply font_map_scan_None in Hall. now rewrite Hall.
Qed.

(** What [lookup_font] prints: nothing, or the warning. *)
Lemma lookup_font_output (nm : option string) :
  snd (lookup_font hdr nm) = [] \/
  exists s, nm = Some s /\
    (forall e, In e (font_map hdr) -> casefold s <> casefold (name e)) /\
    lookup_font hdr nm =
      (ANSILOVE_FONT_CP437 hdr, [Fprintf stderr (font_warning s)]).
Proof.
  destruct nm as [s|]; [| now left].
  unfold lookup_font.
  destruct (font_map_scan s (font_map hdr)) eqn:E; [now left | right].
  exists s. split; [reflexivity |]. split; [| reflexivity].
  now apply font_map_scan_None.
Qed.

(** Running lines 89 to 115 by cases on the environment. *)
Ltac run_env_options environ :=
  unfold resolved, env_options, bind, call, assign, ret, getenv;
  destruct (lookup_font hdr (environ !! "ANSILOVE_FONT")) as [v w];
  destruct (environ !! "ANSILOVE_SCALE");
  destruct (environ !! "ANSILOVE_BITS");
  destruct (environ !! "ANSILOVE_COLUMNS");
  destruct (environ !! "ANSILOVE_ICECOLORS") as [ice|];
  try destruct (strcmp ice "1" =? 0);
  destruct (environ !! "ANSILOVE_MODE") as [md|];
  try destruct (strcasecmp md "ced" =? 0);
  try destruct (strcasecmp md "transparent" =? 0);
  try destruct (strcasecmp md "workbench" =? 0);
  simpl; try rewrite app_nil_r; reflexivity.

(** The block leaves the context alone and prints what [lookup_font]
    prints. *)
Lemma env_options_run (environ : gmap string string) (l : locals lib) :
  env_options hdr lib environ l =
    (tt, mk_locals (ctx l) (resolved hdr lib environ l),
     snd (lookup_font hdr (getenv environ "ANSILOVE_FONT"))).
Proof. run_env_options environ. Qed.

Lemma resolved_font (environ : gmap string string) (l : locals lib) :
  font (resolved hdr lib environ l) =
    fst (lookup_font hdr (getenv environ "ANSILOVE_FONT")).
Proof. run_env_options environ. Qed.

Lemma resolved_scale_factor (environ : gmap string string) (l : locals lib) :
  scale_factor (resolved hdr lib environ l) =
    match environ !! "ANSILOVE_SCALE" with
    | Some val => to_uint8_t (atoi val)
    | None => scale_factor (options l)
    end.
Proof. run_env_options environ. Qed.

Lemma resolved_bits (environ : gmap string string) (l : locals lib) :
  bits (resolved hdr lib environ l) =
    match environ !! "ANSILOVE_BITS" with
    | Some val => to_uint8_t (atoi val)
    | None => bits (options l)
    end.
Proof. run_env_options environ. Qed.

Lemma resolved_columns (environ : gmap string string) (l : locals lib) :
  columns (resolved hdr lib environ l) =
    match environ !! "ANSILOVE_COLUMNS" with
    | Some val => to_int16_t (atoi val)
    | None => columns (options l)
    end.
Proof. run_env_options environ. Qed.

Lemma resolved_mode (environ : gmap string string) (l : locals lib) :
  mode (resolved hdr lib environ l) =
    match environ !! "ANSILOVE_MODE" with
    | Some val =>
        if strcasecmp val "ced" =? 0 then ANSILOVE_MODE_CED hdr
        else if strcasecmp val "transparent" =? 0
             then ANSILOVE_MODE_TRANSPARENT hdr
        else if strcasecmp val "workbench" =? 0
             then ANSILOVE_MODE_WORKBENCH hdr
        else mode (options l)
    | None => mode (options l)
    end.
Proof. run_env_options environ. Qed.

Lemma resolved_icecolors (environ : gmap string string) (l : locals lib) :
  icecolors (resolved hdr lib environ l) =
    match environ !! "ANSILOVE_ICECOLORS" with
    | Some val =>
        if strcmp val "1" =? 0 then true else icecolors (options l)
    | None => icecolors (options l)
    end.
Proof. run_env_options environ. Qed.

(** Options are equal when their six fields are. *)
Lemma options_eq (o1 o2 : ansilove_options) :
  font o1 = font o2 -> scale_factor o1 = scale_factor o2 ->
  bits o1 = bits o2 -> columns o1 = columns o2 ->
  mode o1 = mode o2 -> icecolors o1 = icecolors o2 -> o1 = o2.
Proof.
  destruct o1, o2; simpl; intros; subst; reflexivity.
Qed.

(** ** Facts about the control flow of [main] *)

Lemma pipeline_run (argv : list string) (l : locals lib) :
  pipeline_outcome argv (options l)
    (fst (fst (pipeline lib argv l))) (snd (pipeline lib argv l)).
Proof.
  unfold pipeline, bind, call_loadfile, call_ansi, call_savefile,
    call_error, call_clean, fprintf, ret.
  destruct (ansilove_loadfile lib (ctx l) (arg argv 1)) as [r1 c1].
  destruct (r1 =? -1) eqn:E1; simpl.
  { apply Z.eqb_eq in E1. subst r1.
    destruct (ansilove_clean lib c1). simpl. apply load_failed. }
  apply Z.eqb_neq in E1.
  destruct (ansilove_ansi lib c1 (options l)) as [[r2 c2] o2].
  destruct (r2 =? -1) eqn:E2; simpl.
  { apply Z.eqb_eq in E2. subst r2.
    destruct (ansilove_clean lib c2). simpl. now apply render_failed. }
  apply Z.eqb_neq in E2.
  destruct (ansilove_savefile lib c2 (arg argv 2)) as [r3 c3].
  destruct (r3 =? -1) eqn:E3; simpl.
  { apply Z.eqb_eq in E3. subst r3.
    destruct (ansilove_clean lib c3). simpl. now apply save_failed. }
  apply Z.eqb_neq in E3.
  destruct (ansilove_clean lib c3). simpl. now apply all_succeeded.
Qed.

Lemma main_run (environ : gmap string string) (argv : list string)
    (l0 : locals lib) :
  main_outcome argv (init_result lib l0)
    (snd (lookup_font hdr (getenv environ "ANSILOVE_FONT")))
    (resolved hdr lib environ (after_init lib l0))
    (exit_code hdr lib environ argv l0) (trace hdr lib environ argv l0).
Proof.
  unfold exit_code, trace, main.
  destruct (argc argv =? 3) eqn:Ea; simpl.
  2: { apply Z.eqb_neq in Ea. now apply usage_error. }
  apply Z.eqb_eq in Ea.
  unfold bind, init_result, after_init.
  destruct (call_init lib l0) as [[r0 l1] t0] eqn:Ei. simpl.
  assert (Ht0 : t0 = [Init r0]).
  { unfold call_init in Ei.
    destruct (ansilove_init lib (ctx l0) (options l0)) as [[? ?] ?].
    now inversion Ei. }
  subst t0.
  destruct (r0 =? -1) eqn:E0.
  { apply Z.eqb_eq in E0. unfold fprintf, ret. simpl.
    now apply init_failed. }
  apply Z.eqb_neq in E0.
  rewrite env_options_run.
  pose proof (pipeline_run argv
    (mk_locals (ctx l1) (resolved hdr lib environ l1))) as Hp.
  destruct (pipeline lib argv
    (mk_locals (ctx l1) (resolved hdr lib environ l1))) as [[code l2] t].
  simpl in *. now apply pipeline_ran.
Qed.

(** Past [ansilove_init], a run is the environment block followed by the
    pipeline. *)
Lemma main_pipeline (environ : gmap string string) (argv : list string)
    (l0 : locals lib) :
  argc argv = 3 -> init_result lib l0 <> -1 ->
  main hdr lib environ argv l0 =
    (fst (fst (pipeline lib argv
       (mk_locals (ctx (after_init lib l0))
                  (resolved hdr lib environ (after_init lib l0))))),
     snd (fst (pipeline lib argv
       (mk_locals (ctx (after_init lib l0))
                  (resolved hdr lib environ (after_init lib l0))))),
     Init (init_result lib l0) ::
       snd (lookup_font hdr (getenv environ "ANSILOVE_FONT")) ++
       snd (pipeline lib argv
         (mk_locals (ctx (after_init lib l0))
                    (resolved hdr lib environ (after_init lib l0)))))%list.
Proof.
  intros Ha H0. unfold main.
  apply Z.eqb_eq in Ha. rewrite Ha.
  unfold bind, init_result, after_init in *. cbn [negb]. cbv beta iota.
  destruct (call_init lib l0) as [[r0 l1] t0] eqn:Ei. cbn [fst snd] in *.
  assert (Ht0 : t0 = [Init r0]).
  { unfold call_init in Ei.
    destruct (ansilove_init lib (ctx l0) (options l0)) as [[? ?] ?].
    now inversion Ei. }
  subst t0.
  apply Z.eqb_neq in H0. rewrite H0. cbv beta iota.
  rewrite env_options_run.
  destruct (pipeline lib argv
    (mk_locals (ctx l1) (resolved hdr lib environ l1))) as [[code l2] t].
  reflexivity.
Qed.

(** The pipeline starts with the load call. *)
Lemma pipeline_starts_with_load (argv : list string) (l : locals lib) :
  exists r rest, snd (pipeline lib argv l) = Loadfile (arg argv 1) r :: rest.
Proof.
  pose proof (pipeline_run argv l) as Hp.
  destruct Hp; eauto.
Qed.

(** The environment reaches [main] through lines 89 to 115 only. *)
Lemma main_env_options_congr (environ environ' : gmap string string)
    (argv : list string) (l0 : locals lib) :
  (forall l, env_options hdr lib environ l = env_options hdr lib environ' l) ->
  main hdr lib environ argv l0 = main hdr lib environ' argv l0.
Proof.
  intros Heq. unfold main, bind.
  destruct (negb (argc argv =? 3)); [reflexivity |].
  destruct (call_init lib l0) as [[r0 l1] t0].
  destruct (r0 =? -1); [reflexivity |].
  now rewrite Heq.
Qed.

(** The block reads six variables. *)
Lemma resolved_agree (environ environ' : gmap string string)
    (l : locals lib) :
  fst (lookup_font hdr (getenv environ "ANSILOVE_FONT")) =
    fst (lookup_font hdr (getenv environ' "ANSILOVE_FONT")) ->
  environ !! "ANSILOVE_SCALE" = environ' !! "ANSILOVE_SCALE" ->
  environ !! "ANSILOVE_BITS" = environ' !! "ANSILOVE_BITS" ->
  environ !! "ANSILOVE_COLUMNS" = environ' !! "ANSILOVE_COLUMNS" ->
  mode (resolved hdr lib environ l) = mode (resolved hdr lib environ' l) ->
  environ !! "ANSILOVE_ICECOLORS" = environ' !! "ANSILOVE_ICECOLORS" ->
  resolved hdr lib environ l = resolved hdr lib environ' l.
Proof.
  intros Hf Hs Hb Hc Hm Hi. apply options_eq.
  - now rewrite !resolved_font, Hf.
  - now rewrite !resolved_scale_factor, Hs.
  - now rewrite !resolved_bits, Hb.
  - now rewrite !resolved_columns, Hc.
  - exact Hm.
  - now rewrite !resolved_icecolors, Hi.
Qed.

(** The options depend on the ones the block starts from, not on the
    context. *)
Lemma resolved_options_only (environ : gmap string string)
    (l l' : locals lib) :
  options l = options l' ->
  resolved hdr lib environ l = resolved hdr lib environ l'.
Proof.
  intros Ho. apply options_eq.
  - now rewrite !resolved_font.
  - now rewrite !resolved_scale_factor, Ho.
  - now rewrite !resolved_bits, Ho.
  - now rewrite !resolved_columns, Ho.
  - now rewrite !resolved_mode, Ho.
  - now rewrite !resolved_icecolors, Ho.
Qed.

(** Removing the font variable changes what is printed at most. *)
Lemma resolved_delete_font (environ : gmap string string) (l : locals lib) :
  fst (lookup_font hdr (getenv environ "ANSILOVE_FONT")) =
    ANSILOVE_FONT_CP437 hdr ->
  resolved hdr lib (delete "ANSILOVE_FONT" environ) l =
    resolved hdr lib environ l.
Proof.
  intros Hf. apply resolved_agree.
  - unfold getenv in *. rewrite lookup_delete_eq. now rewrite Hf.
  - now rewrite lookup_delete_ne.
  - now rewrite lookup_delete_ne.
  - now rewrite lookup_delete_ne.
  - rewrite !resolved_mode. now rewrite lookup_delete_ne.
  - now rewrite lookup_delete_ne.
Qed.

(** Removing a mode that is none of the three tokens changes nothing. *)
Lemma env_options_delete_mode (environ : gmap string string)
    (val : string) (l : locals lib) :
  environ !! "ANSILOVE_MODE" = Some val ->
  casefold val <> casefold "ced" ->
  casefold val <> casefold "transparent" ->
  casefold val <> casefold "workbench" ->
  env_options hdr lib environ l =
    env_options hdr lib (delete "ANSILOVE_MODE" environ) l.
Proof.
  intros Hv H1 H2 H3. rewrite !env_options_run. unfold getenv.
  rewrite (lookup_delete_ne environ "ANSILOVE_MODE" "ANSILOVE_FONT")
    by discriminate.
  f_equal. f_equal. f_equal. apply resolved_agree.
  - unfold getenv. now rewrite lookup_delete_ne.
  - now rewrite lookup_delete_ne.
  - now rewrite lookup_delete_ne.
  - now rewrite lookup_delete_ne.
  - rewrite !resolved_mode. rewrite lookup_delete_eq, Hv.
    rewrite <- strcasecmp_casefold in H1, H2, H3.
    apply Z.eqb_neq in H1, H2, H3. now rewrite H1, H2, H3.
  - now rewrite lookup_delete_ne.
Qed.

(** A run with a font name the table does not have is the run without
    the variable, with the warning printed after [ansilove_init]. *)
Lemma unknown_font_run (environ : gmap string string) (nm : string)
    (argv : list string) (l0 : locals lib) :
  environ !! "ANSILOVE_FONT" = Some nm ->
  (forall e, In e (font_map hdr) -> casefold nm <> casefold (name e)) ->
  argc argv = 3 -> init_result lib l0 <> -1 ->
  exists r rest,
    trace hdr lib environ argv l0 =
      Init (init_result lib l0) :: Fprintf stderr (font_warning nm) ::
      Loadfile (arg argv 1) r :: rest /\
    trace hdr lib (delete "ANSILOVE_FONT" environ) argv l0 =
      Init (init_result lib l0) :: Loadfile (arg argv 1) r :: rest /\
    exit_code hdr lib environ argv l0 =
      exit_code hdr lib (delete "ANSILOVE_FONT" environ) argv l0.
Proof.
  intros Hnm Hall Ha H0. unfold trace, exit_code.
  rewrite !main_pipeline by assumption. cbn [fst snd].
  assert (Hf : lookup_font hdr (getenv environ "ANSILOVE_FONT") =
    (ANSILOVE_FONT_CP437 hdr, [Fprintf stderr (font_warning nm)])).
  { unfold getenv. rewrite Hnm. now apply lookup_font_unknown. }
  rewrite resolved_delete_font by now rewrite Hf.
  rewrite Hf. unfold getenv at 1. rewrite lookup_delete_eq.
cbn [snd lookup_font].
  destruct (pipeline_starts_with_load argv
    (mk_locals (ctx (after_init lib l0))
       (resolved hdr lib environ (after_init lib l0)))) as (r & rest & Hp).
  exists r, rest. rewrite Hp. repeat split; reflexivity.
Qed.

Lemma environ_ok_empty : environ_ok ∅.
Proof. intros var val Hl. now rewrite lookup_empty in Hl. Qed.

Lemma environ_ok_insert (environ : gmap string string) (var val : string) :
  cstring_ok val = true -> environ_ok environ ->
  environ_ok (<[var := val]> environ).
Proof.
  intros Hv Hok var' val' Hl.
  destruct (decide (var = var')) as [<- | Hne].
  - rewrite lookup_insert_eq in Hl. now inversion Hl; subst.
  - rewrite lookup_insert_ne in Hl by exact Hne. now apply (Hok var').
Qed.

End ProgramFacts.

(** ** The run as a whole *)

Section Run.

Variable hdr : ansilove_h.
Variable lib : libansilove.

(** Case analysis on a run: the three ways through [main], the four
    through the pipeline, with or without the font warning. *)
Ltac main_cases environ argv l0 :=
  let H := fresh "Hrun" in
  let Hw := fresh "Hw" in
  let Hp := fresh "Hp" in
  pose proof (main_run hdr lib environ argv l0) as H;
  destruct (lookup_font_output hdr (getenv environ "ANSILOVE_FONT"))
    as [Hw | (?s & ?Hs & ?Hall & Hw)];
  rewrite Hw in *; clear Hw; simpl snd in *;
  remember (exit_code hdr lib environ argv l0) as code eqn:Hcode;
  remember (trace hdr lib environ argv l0) as t eqn:Ht;
  clear Hcode Ht;
  destruct H as [?Ha | ?Ha ?H0 | ?code ?t ?Ha ?H0 Hp];
  try destruct Hp; simpl app in *.

(** Membership in a list that is written out. *)
Ltac in_cases H :=
  simpl In in H;
  repeat (destruct H as [H | H]; [try discriminate H | ]);
  try contradiction.

(** The renderer is handed the options of lines 89 to 115. *)
Lemma render_options (environ : gmap string string) (argv : list string)
    (l0 : locals lib) (o : ansilove_options) (r : Z) :
  In (Ansi o r) (trace hdr lib environ argv l0) ->
  o = resolved hdr lib environ (after_init lib l0).
Proof.
  main_cases environ argv l0; intros Hin; in_cases Hin;
    now inversion Hin.
Qed.

(** Once [ansilove_init] has succeeded the load call is made, whatever
    the environment holds. *)
Lemma load_reached (environ : gmap string string) (argv : list string)
    (l0 : locals lib) :
  argc argv = 3 -> init_result lib l0 <> -1 ->
  exists r, In (Loadfile (arg argv 1) r) (trace hdr lib environ argv l0).
Proof.
  intros Hargc Hinit.
  main_cases environ argv l0; try contradiction;
    eexists; simpl; eauto 6.
Qed.

(** C1: when [ansilove_init] succeeds, [ansilove_clean] is called exactly
    once, as the last action of the run, whether the pipeline succeeds or
    its load, render or save stage fails; when the argument count is
    wrong or [ansilove_init] fails, it is never called. *)
Theorem context_released_exactly_once
    (environ : gmap string string) (argv : list string) (l0 : locals lib) :
  (argc argv = 3 -> init_result lib l0 <> -1 ->
     count_clean (trace hdr lib environ argv l0) = 1%nat /\
     exists before,
       trace hdr lib environ argv l0 = (before ++ [Clean])%list /\
       count_clean before = 0%nat) /\
  (argc argv <> 3 \/ init_result lib l0 = -1 ->
     count_clean (trace hdr lib environ argv l0) = 0%nat).
Proof.
  split.
  - intros Hargc Hinit.
    main_cases environ argv l0; try contradiction;
      (split; [reflexivity |]);
      match goal with
      | |- exists before, ?t = _ /\ _ =>
          exists (removelast t); simpl; split; reflexivity
      end.
  - intros Hbad.
    main_cases environ argv l0; try reflexivity;
      destruct Hbad; contradiction.
Qed.

(** C3: with an argument count other than two the run prints the usage
    line on the error stream and exits 1; it does nothing else, so it
    calls no library function and touches no file. *)
Theorem wrong_argument_count_is_usage_error
    (environ : gmap string string) (argv : list string) (l0 : locals lib) :
  List.length (tl argv) <> 2%nat ->
  main hdr lib environ argv l0 =
    (1, l0, [Fprintf stderr ("usage: ansi2png INPUT OUTPUT.png" ++ LF)]) /\
  (forall e, In e (trace hdr lib environ argv l0) ->
     is_library_call e = false) /\
  files_touched (trace hdr lib environ argv l0) = [].
Proof.
  intros Hn.
  assert (Hmain : main hdr lib environ argv l0 =
    (1, l0, [Fprintf stderr ("usage: ansi2png INPUT OUTPUT.png" ++ LF)])).
  { unfold main, argc.
    destruct (Z.of_nat (List.length argv) =? 3) eqn:E; [| reflexivity].
    apply Z.eqb_eq in E. destruct argv as [|a0 rest]; simpl in *; lia. }
  split; [exact Hmain |].
  unfold trace. rewrite Hmain. simpl. split; [| reflexivity].
  intros e [<- | []]. reflexivity.
Qed.

(** A success claimed for a call that the trace shows returning -1, or
    not at all. *)
Ltac refute_init H :=
  let r := fresh "r" in
  let Hin := fresh "Hin" in
  let Hne := fresh "Hne" in
  destruct H as (r & Hin & Hne);
  in_cases Hin; inversion Hin; subst; contradiction.

Ltac refute_stage H :=
  let e := fresh "e" in
  let r := fresh "r" in
  let x := fresh "x" in
  let Hin := fresh "Hin" in
  let Hcall := fresh "Hcall" in
  let Hne := fresh "Hne" in
  destruct H as (e & r & Hin & Hcall & Hne);
  simpl in Hcall; destruct Hcall as [x ->];
  in_cases Hin; inversion Hin; subst; contradiction.

(** A successful call, found in a trace that is written out. *)
Ltac witness_init :=
  match goal with
  | |- init_succeeded (Init ?r :: _) =>
      exists r; split; [now left | assumption]
  end.

Ltac witness_stage :=
  match goal with
  | |- stage_succeeded _ ?t =>
      match t with
      | context [Loadfile ?p ?r] =>
          exists (Loadfile p r), r;
          split; [simpl; auto 10 |];
          split; [exists p; reflexivity | assumption]
      | context [Ansi ?o ?r] =>
          exists (Ansi o r), r;
          split; [simpl; auto 10 |];
          split; [exists o; reflexivity | assumption]
      | context [Savefile ?p ?r] =>
          exists (Savefile p r), r;
          split; [simpl; auto 10 |];
          split; [exists p; reflexivity | assumption]
      end
  end.

(** C2: the run exits 0 exactly when the init, load, render and save
    calls were all made and none returned -1. When the load, render or
    save call returns -1 the run exits 1, and after that call it only
    asks the library for its error string, prints one line naming the
    stage with that string on the error stream, and releases the
    context; before it, it printed nothing but what the font lookup
    prints and called earlier stages only, so no stage is tried twice
    and no later stage runs. *)
Theorem exit_code_follows_first_failure
    (environ : gmap string string) (argv : list string) (l0 : locals lib) :
  (exit_code hdr lib environ argv l0 = 0 <->
     init_succeeded (trace hdr lib environ argv l0) /\
     stage_succeeded Load (trace hdr lib environ argv l0) /\
     stage_succeeded Render (trace hdr lib environ argv l0) /\
     stage_succeeded Save (trace hdr lib environ argv l0)) /\
  (exit_code hdr lib environ argv l0 = 0 \/
   exit_code hdr lib environ argv l0 = 1) /\
  (forall s e,
     In e (trace hdr lib environ argv l0) -> stage_call s e (-1) ->
     exit_code hdr lib environ argv l0 = 1 /\
     exists before message,
       trace hdr lib environ argv l0 =
         (before ++ [e; Error message;
                     Fprintf stderr (diagnostic s message); Clean])%list /\
       List.filter is_fprintf before =
         snd (lookup_font hdr (getenv environ "ANSILOVE_FONT")) /\
       (forall s' e', In e' before -> calls_stage s' e' = true ->
          (stage_index s' < stage_index s)%nat)).
Proof.
  pose proof (main_run hdr lib environ argv l0) as Hrun.
  destruct (lookup_font_output hdr (getenv environ "ANSILOVE_FONT"))
    as [Hw | (nm & Hnm & Hall & Hw)];
    rewrite Hw in *; clear Hw; simpl snd in *;
    remember (exit_code hdr lib environ argv l0) as code eqn:Hcode;
    remember (trace hdr lib environ argv l0) as t eqn:Ht;
    clear Hcode Ht;
    (destruct Hrun as [Ha | Ha H0 | code t Ha H0 Hp];
     [ | | destruct Hp]); simpl app;
    (split; [split |
             split; [first [now left | now right] |]]).
  (* exit code 0 gives the four successes *)
  all: try (intros Hc; discriminate Hc).
  all: try (intros _; split; [witness_init | repeat split; witness_stage]).
  (* the four successes give exit code 0 *)
  all: try (intros _; reflexivity).
  all: try (intros (Hi & Hl & Hr & Hs);
            first [ refute_init Hi | refute_stage Hl
                  | refute_stage Hr | refute_stage Hs ]).
  (* a failed stage *)
  all: intros s e Hin Hcall;
       destruct s; simpl in Hcall; destruct Hcall as [x ->];
       in_cases Hin; inversion Hin; subst; try contradiction.
  all: split; [reflexivity |].
  all: match goal with
       | |- exists before message, ?t = _ /\ _ =>
           exists (firstn (List.length t - 4) t); simpl;
           eexists; split; [reflexivity |]
       end.
  all: split; [reflexivity |].
  all: intros s' e' Hin' Hs'; in_cases Hin'; subst e';
       destruct s'; simpl in *; try discriminate; lia.
Qed.

(** C9: no run writes to standard output: whatever a run prints goes to
    the error stream. The only path a run hands to the library for
    writing is [argv[2]], at most once, and exactly once when it exits
    0. *)
Theorem nothing_on_standard_output
    (environ : gmap string string) (argv : list string) (l0 : locals lib) :
  (forall e, In e (trace hdr lib environ argv l0) ->
     writes_stdout e = false) /\
  (forall f text, In (Fprintf f text) (trace hdr lib environ argv l0) ->
     f = stderr) /\
  (files_written (trace hdr lib environ argv l0) = [] \/
   files_written (trace hdr lib environ argv l0) = [arg argv 2]) /\
  (exit_code hdr lib environ argv l0 = 0 ->
     files_written (trace hdr lib environ argv l0) = [arg argv 2]).
Proof.
  main_cases environ argv l0; repeat split.
  all: match goal with
       | |- forall e, In e _ -> writes_stdout e = false =>
           intros e Hin; in_cases Hin; subst e; reflexivity
       | |- forall f text, In _ _ -> f = stderr =>
           intros f text Hin; in_cases Hin; now inversion Hin
       | |- _ \/ _ => simpl; first [now left | now right]
       | |- _ = 0 -> _ => intros Hc; first [discriminate Hc | reflexivity]
       end.
Qed.

End Run.

(** ** The options taken from the environment *)

Section Environment.

Variable hdr : ansilove_h.
Variable lib : libansilove.

(** C4: starting from the library's default, iCE colors off, the flag is
    on after lines 89 to 115 exactly when [ANSILOVE_ICECOLORS] is set to
    the string [1]; with any other value, or unset, it stays off. The
    same holds of the options the renderer is called with. *)
Theorem icecolors_only_when_exactly_1 (environ : gmap string string) :
  environ_ok environ ->
  (forall l : locals lib,
     icecolors (options l) = false ->
     (icecolors (resolved hdr lib environ l) = true <->
      environ !! "ANSILOVE_ICECOLORS" = Some "1")) /\
  (forall argv (l0 : locals lib) o r,
     icecolors (options (after_init lib l0)) = false ->
     In (Ansi o r) (trace hdr lib environ argv l0) ->
     (icecolors o = true <->
      environ !! "ANSILOVE_ICECOLORS" = Some "1")).
Proof.
  intros Hok.
  assert (Hblock : forall l : locals lib,
    icecolors (options l) = false ->
    (icecolors (resolved hdr lib environ l) = true <->
     environ !! "ANSILOVE_ICECOLORS" = Some "1")).
  { intros l Hdefault. rewrite resolved_icecolors, Hdefault.
    destruct (environ !! "ANSILOVE_ICECOLORS") as [val|] eqn:Ev.
    - pose proof (strcmp_eq val "1" (Hok _ _ Ev) eq_refl) as Hcmp.
      destruct (strcmp val "1" =? 0) eqn:Es.
      + apply Z.eqb_eq in Es. apply Hcmp in Es. subst val. tauto.
      + apply Z.eqb_neq in Es. split; [discriminate |].
        intros Hv. inversion Hv. tauto.
    - split; discriminate. }
  split; [exact Hblock |].
  intros argv l0 o r Hdefault Hin.
  rewrite (render_options hdr lib environ argv l0 o r Hin).
  now apply Hblock.
Qed.

(** C5: for a font name that differs from every name of the table in
    more than letter case, [lookup_font] prints one warning on the error
    stream, with the name in it, and returns [ANSILOVE_FONT_CP437]; for
    an unset variable it returns the same and prints nothing. A run with
    such a name goes on to the load call: it is the run without the
    variable plus the warning, with the same exit code. *)
Theorem unknown_font_warns_and_falls_back (nm : string) :
  (forall e, In e (font_map hdr) -> casefold nm <> casefold (name e)) ->
  lookup_font hdr (Some nm) =
    (ANSILOVE_FONT_CP437 hdr, [Fprintf stderr (font_warning nm)]) /\
  lookup_font hdr None = (ANSILOVE_FONT_CP437 hdr, []) /\
  (forall (environ : gmap string string) (l : locals lib),
     environ !! "ANSILOVE_FONT" = Some nm ->
     font (resolved hdr lib environ l) = ANSILOVE_FONT_CP437 hdr) /\
  (forall (environ : gmap string string) argv (l0 : locals lib),
     environ !! "ANSILOVE_FONT" = Some nm ->
     argc argv = 3 -> init_result lib l0 <> -1 ->
     exists r rest,
       trace hdr lib environ argv l0 =
         Init (init_result lib l0) :: Fprintf stderr (font_warning nm) ::
         Loadfile (arg argv 1) r :: rest /\
       trace hdr lib (delete "ANSILOVE_FONT" environ) argv l0 =
         Init (init_result lib l0) :: Loadfile (arg argv 1) r :: rest /\
       exit_code hdr lib environ argv l0 =
         exit_code hdr lib (delete "ANSILOVE_FONT" environ) argv l0).
Proof.
  intros Hall.
  pose proof (lookup_font_unknown hdr nm Hall) as Hl.
  split; [exact Hl |]. split; [reflexivity |]. split.
  - intros environ l Hnm. rewrite resolved_font. unfold getenv.
    now rewrite Hnm, Hl.
  - intros environ argv l0 Hnm Hargc Hinit.
    now apply unknown_font_run.
Qed.

(** C6: when [s] is the name of a table entry up to letter case, and [t]
    is [s] up to letter case, [lookup_font] returns for both the value of
    that entry, and prints nothing. *)
Theorem lookup_font_ignores_letter_case (e : font_entry) (s t : string) :
  In e (font_map hdr) ->
  strcasecmp s (name e) = 0 ->
  casefold t = casefold s ->
  lookup_font hdr (Some s) = (value e, []) /\
  lookup_font hdr (Some t) = lookup_font hdr (Some s).
Proof.
  intros Hin Hs Ht. apply strcasecmp_casefold in Hs.
  rewrite (lookup_font_known hdr e s Hin Hs).
  split; [reflexivity |].
  apply lookup_font_known; [exact Hin | congruence].
Qed.

(** C7: [ANSILOVE_MODE] is compared, letter case aside, with [ced],
    [transparent] and [workbench], and a match sets the mode of that
    name. Any other value leaves the mode as it was, as an unset variable
    does, and the whole run is then the run without the variable: nothing
    more is printed and the exit code is the same. Whatever the value,
    lines 89 to 115 print only what the font lookup prints. *)
Theorem mode_matches_three_tokens
    (environ : gmap string string) (l : locals lib) :
  (forall val, environ !! "ANSILOVE_MODE" = Some val ->
     (casefold val = casefold "ced" ->
      mode (resolved hdr lib environ l) = ANSILOVE_MODE_CED hdr) /\
     (casefold val = casefold "transparent" ->
      mode (resolved hdr lib environ l) = ANSILOVE_MODE_TRANSPARENT hdr) /\
     (casefold val = casefold "workbench" ->
      mode (resolved hdr lib environ l) = ANSILOVE_MODE_WORKBENCH hdr) /\
     (casefold val <> casefold "ced" ->
      casefold val <> casefold "transparent" ->
      casefold val <> casefold "workbench" ->
      mode (resolved hdr lib environ l) = mode (options l) /\
      forall argv (l0 : locals lib),
        main hdr lib environ argv l0 =
        main hdr lib (delete "ANSILOVE_MODE" environ) argv l0)) /\
  (environ !! "ANSILOVE_MODE" = None ->
     mode (resolved hdr lib environ l) = mode (options l)) /\
  snd (env_options hdr lib environ l) =
    snd (lookup_font hdr (getenv environ "ANSILOVE_FONT")).
Proof.
  split; [| split].
  - intros val Hv. rewrite resolved_mode, Hv.
    destruct (strcasecmp val "ced" =? 0) eqn:E1;
      [apply Z.eqb_eq in E1 | apply Z.eqb_neq in E1];
      (destruct (strcasecmp val "transparent" =? 0) eqn:E2;
        [apply Z.eqb_eq in E2 | apply Z.eqb_neq in E2]);
      (destruct (strcasecmp val "workbench" =? 0) eqn:E3;
        [apply Z.eqb_eq in E3 | apply Z.eqb_neq in E3]);
      rewrite strcasecmp_casefold in E1, E2, E3;
      (split; [| split; [| split]]);
      try (intros Hc; first [reflexivity | contradiction
                            | rewrite Hc in *; discriminate]).
    all: intros H1 H2 H3; try contradiction.
    split; [reflexivity |].
    intros argv l0. apply main_env_options_congr.
    intros l'. now apply (env_options_delete_mode hdr lib environ val).
  - intros Hv. now rewrite resolved_mode, Hv.
  - now rewrite env_options_run.
Qed.

(** C8: [ANSILOVE_SCALE], [ANSILOVE_BITS] and [ANSILOVE_COLUMNS] go
    through [atoi] and a cast, with no check. A set variable gives scale
    and bits the value of [atoi] modulo 2^8, and columns that value
    wrapped to signed 16 bits; an unset one leaves the field as it was.
    [atoi] gives 0 for a text with no number in front, and the number
    itself when it fits an [int], so 256 becomes scale 0. No value
    stops the run: after a successful [ansilove_init] the load call is
    made, and lines 89 to 115 print only what the font lookup prints. *)
Theorem numeric_options_are_unchecked
    (environ : gmap string string) (l : locals lib) :
  match environ !! "ANSILOVE_SCALE" with
  | Some val =>
      scale_factor (resolved hdr lib environ l) = atoi val mod 2 ^ 8
  | None =>
      scale_factor (resolved hdr lib environ l) = scale_factor (options l)
  end /\
  match environ !! "ANSILOVE_BITS" with
  | Some val => bits (resolved hdr lib environ l) = atoi val mod 2 ^ 8
  | None => bits (resolved hdr lib environ l) = bits (options l)
  end /\
  match environ !! "ANSILOVE_COLUMNS" with
  | Some val =>
      - 2 ^ 15 <= columns (resolved hdr lib environ l) < 2 ^ 15 /\
      columns (resolved hdr lib environ l) mod 2 ^ 16 = atoi val mod 2 ^ 16
  | None => columns (resolved hdr lib environ l) = columns (options l)
  end /\
  (forall val, non_numeric val = true -> atoi val = 0) /\
  (forall val, INT_MIN <= parse_decimal val <= INT_MAX ->
     atoi val = parse_decimal val) /\
  (environ !! "ANSILOVE_SCALE" = Some "256" ->
     scale_factor (resolved hdr lib environ l) = 0) /\
  (forall argv (l0 : locals lib),
     argc argv = 3 -> init_result lib l0 <> -1 ->
     exists r, In (Loadfile (arg argv 1) r) (trace hdr lib environ argv l0)) /\
  snd (env_options hdr lib environ l) =
    snd (lookup_font hdr (getenv environ "ANSILOVE_FONT")).
Proof.
  rewrite resolved_scale_factor, resolved_bits, resolved_columns.
  repeat split.
  - now destruct (environ !! "ANSILOVE_SCALE").
  - now destruct (environ !! "ANSILOVE_BITS").
  - destruct (environ !! "ANSILOVE_COLUMNS") as [val|]; [| reflexivity].
    pose proof (to_int16_t_range (atoi val)).
    split; [lia | apply to_int16_t_congr].
  - apply atoi_non_numeric.
  - apply atoi_in_range.
  - intros ->. reflexivity.
  - intros argv l0. apply load_reached.
  - now rewrite env_options_run.
Qed.

(** C10: the empty string is a font name like any other that the table
    does not have: [lookup_font] prints the warning, with nothing between
    the quotes, and returns [ANSILOVE_FONT_CP437], and the run prints it
    before the load call. The unset variable takes the first [return]
    and prints nothing. In general [lookup_font] prints nothing only for
    an unset variable or a name of the table. *)
Theorem empty_font_name_is_not_unset :
  lookup_font hdr (Some "") =
    (ANSILOVE_FONT_CP437 hdr, [Fprintf stderr (font_warning "")]) /\
  font_warning "" = "ansi2png: unknown font '', using CP437" ++ LF /\
  lookup_font hdr None = (ANSILOVE_FONT_CP437 hdr, []) /\
  (forall nm : option string,
     snd (lookup_font hdr nm) = [] <->
     nm = None \/
     exists s e, nm = Some s /\ In e (font_map hdr) /\
                 casefold s = casefold (name e)) /\
  (forall (environ : gmap string string) argv (l0 : locals lib),
     environ !! "ANSILOVE_FONT" = Some "" ->
     argc argv = 3 -> init_result lib l0 <> -1 ->
     exists r rest,
       trace hdr lib environ argv l0 =
         Init (init_result lib l0) :: Fprintf stderr (font_warning "") ::
         Loadfile (arg argv 1) r :: rest).
Proof.
  assert (Hnone : forall e, In e (font_map hdr) ->
            casefold "" <> casefold (name e)).
  { apply font_map_scan_None. reflexivity. }
  split; [reflexivity |]. split; [reflexivity |]. split; [reflexivity |].
  split.
  - intros nm. split.
    + intros Hsilent. destruct nm as [s|]; [right | now left].
      unfold lookup_font in Hsilent.
      destruct (font_map_scan s (font_map hdr)) eqn:Es; [| discriminate].
      destruct (classic_scan s (font_map hdr)) as [(e & Hin & Hc) | Hno].
      * now exists s, e.
      * apply font_map_scan_None in Hno. congruence.
    + intros [-> | (s & e & -> & Hin & Hc)]; [reflexivity |].
      now rewrite (lookup_font_known hdr e s Hin Hc).
  - intros environ argv l0 Hnm Hargc Hinit.
    destruct (unknown_font_run hdr lib environ "" argv l0
                Hnm Hnone Hargc Hinit) as (r & rest & Ht & _).
    now exists r, rest.
Qed.

End Environment.

(** ** The theorems on the sample library *)

Lemma sample_environ_ok : environ_ok Sample.environ.
Proof.
  unfold Sample.environ.
  repeat (apply environ_ok_insert; [reflexivity |]).
  apply environ_ok_empty.
Qed.

Lemma context_released_exactly_once_witness :
  count_clean
    (trace Sample.header Sample.library Sample.environ Sample.argv
       Sample.stack) = 1%nat /\
  count_clean
    (trace Sample.header Sample.library Sample.environ
       ["ansi2png"; "missing.ans"; "art.png"] Sample.stack) = 1%nat /\
  count_clean
    (trace Sample.header Sample.broken Sample.environ Sample.argv
       Sample.broken_stack) = 0%nat.
Proof.
  split; [| split].
  - apply (context_released_exactly_once Sample.header Sample.library
             Sample.environ Sample.argv Sample.stack);
      [reflexivity | vm_compute; discriminate].
  - apply (context_released_exactly_once Sample.header Sample.library
             Sample.environ ["ansi2png"; "missing.ans"; "art.png"]
             Sample.stack);
      [reflexivity | vm_compute; discriminate].
  - apply (context_released_exactly_once Sample.header Sample.broken
             Sample.environ Sample.argv Sample.broken_stack).
    right. reflexivity.
Defined.

Lemma exit_code_follows_first_failure_witness :
  exit_code Sample.header Sample.library Sample.garbled
    ["ansi2png"; "missing.ans"; "art.png"] Sample.stack = 1.
Proof.
  apply (proj2 (proj2 (exit_code_follows_first_failure Sample.header
                  Sample.library Sample.garbled
                  ["ansi2png"; "missing.ans"; "art.png"] Sample.stack))
           Load (Loadfile "missing.ans" (-1))).
  - vm_compute. auto.
  - exists "missing.ans". reflexivity.
Defined.

Lemma wrong_argument_count_is_usage_error_witness :
  main Sample.header Sample.library Sample.environ
    ["ansi2png"; "art.ans"] Sample.stack =
  (1, Sample.stack,
   [Fprintf stderr ("usage: ansi2png INPUT OUTPUT.png" ++ LF)]).
Proof.
  apply (wrong_argument_count_is_usage_error Sample.header Sample.library
           Sample.environ ["ansi2png"; "art.ans"] Sample.stack).
  simpl. lia.
Defined.

Lemma icecolors_only_when_exactly_1_witness :
  icecolors (resolved Sample.header Sample.library Sample.environ
               (after_init Sample.library Sample.stack)) = true.
Proof.
  apply (proj1 (icecolors_only_when_exactly_1 Sample.header Sample.library
                  Sample.environ sample_environ_ok)
           (after_init Sample.library Sample.stack)).
  - reflexivity.
  - vm_compute. reflexivity.
Defined.

Lemma unknown_font_warns_and_falls_back_witness :
  lookup_font Sample.header (Some "topaz9") =
    (1, [Fprintf stderr (font_warning "topaz9")]).
Proof.
  apply (unknown_font_warns_and_falls_back Sample.header Sample.library
           "topaz9").
  intros e Hin. unfold font_map in Hin. simpl In in Hin.
  repeat (destruct Hin as [<- | Hin]; [vm_compute; discriminate |]).
  destruct Hin.
Defined.

Lemma lookup_font_ignores_letter_case_witness :
  lookup_font Sample.header (Some "topaz") = (34, []) /\
  lookup_font Sample.header (Some "ToPaZ") =
    lookup_font Sample.header (Some "topaz").
Proof.
  apply (lookup_font_ignores_letter_case Sample.header
           (mk_font_entry "TOPAZ" 34) "topaz" "ToPaZ").
  - vm_compute. auto 30.
  - reflexivity.
  - reflexivity.
Defined.

Lemma mode_matches_three_tokens_witness :
  mode (resolved Sample.header Sample.library Sample.environ Sample.stack) =
    1 /\
  mode (resolved Sample.header Sample.library Sample.garbled Sample.stack) =
    9.
Proof.
  split.
  - apply (proj1 (proj1 (mode_matches_three_tokens Sample.header
                    Sample.library Sample.environ Sample.stack)
                    "CeD" ltac:(vm_compute; reflexivity))).
    reflexivity.
  - apply (proj2 (proj2 (proj2 (proj1 (mode_matches_three_tokens
             Sample.header Sample.library Sample.garbled Sample.stack)
             "bogus" ltac:(vm_compute; reflexivity)))));
      vm_compute; discriminate.
Defined.

Lemma numeric_options_are_unchecked_witness :
  scale_factor
    (resolved Sample.header Sample.library Sample.environ Sample.stack) = 0 /\
  atoi "big" = 0.
Proof.
  pose proof (numeric_options_are_unchecked Sample.header Sample.library
                Sample.environ Sample.stack)
    as (_ & _ & _ & Hnon & _ & H256 & _).
  split.
  - apply H256. vm_compute. reflexivity.
  - apply Hnon. reflexivity.
Defined.

Lemma nothing_on_standard_output_witness :
  files_written
    (trace Sample.header Sample.library Sample.environ Sample.argv
       Sample.stack) = ["art.png"].
Proof.
  apply (proj2 (proj2 (proj2 (nothing_on_standard_output Sample.header
           Sample.library Sample.environ Sample.argv Sample.stack)))).
  vm_compute. reflexivity.
Defined.

Lemma empty_font_name_is_not_unset_witness :
  exists r rest,
    trace Sample.header Sample.library Sample.unnamed Sample.argv
      Sample.stack =
    Init 0 :: Fprintf stderr (font_warning "") ::
    Loadfile "art.ans" r :: rest.
Proof.
  apply (proj2 (proj2 (proj2 (proj2 (empty_font_name_is_not_unset
           Sample.header Sample.library))))
           Sample.unnamed Sample.argv Sample.stack).
  - vm_compute. reflexivity.
  - reflexivity.
  - vm_compute. discriminate.
Defined.

(** ** The program at work *)

Example run_without_environment :
  main Sample.header Sample.library ∅ Sample.argv Sample.stack =
  (0, mk_locals (lib := Sample.library) 0 (mk_options 1 0 8 0 0 false),
   [Init 0; Loadfile "art.ans" 0; Ansi (mk_options 1 0 8 0 0 false) 0;
    Savefile "art.png" 0; Clean]).
Proof. reflexivity. Qed.

Example run_with_environment :
  trace Sample.header Sample.library Sample.environ Sample.argv Sample.stack =
  [Init 0; Loadfile "art.ans" 0; Ansi (mk_options 34 0 9 160 1 true) 0;
   Savefile "art.png" 0; Clean].
Proof. vm_compute. reflexivity. Qed.

Example run_on_missing_input :
  main Sample.header Sample.library (Sample.only "ANSILOVE_FONT" "topaz9")
    ["ansi2png"; "missing.ans"; "art.png"] Sample.stack =
  (1, mk_locals (lib := Sample.library) 0 (mk_options 1 0 8 0 0 false),
   [Init 0;
    Fprintf stderr ("ansi2png: unknown font 'topaz9', using CP437" ++ LF);
    Loadfile "missing.ans" (-1); Error "File error.";
    Fprintf stderr ("ansi2png: load failed: File error." ++ LF); Clean]).
Proof. vm_compute. reflexivity. Qed.

Example run_with_failing_render :
  main Sample.header Sample.library Sample.garbled Sample.argv Sample.stack =
  (1, mk_locals (lib := Sample.library) 0 (mk_options 1 0 8 (-4464) 0 false),
   [Init 0;
    Fprintf stderr ("ansi2png: unknown font 'topaz9', using CP437" ++ LF);
    Loadfile "art.ans" 0; Ansi (mk_options 1 0 8 (-4464) 0 false) (-1);
    Error "Value out of allowed range.";
    Fprintf stderr
      ("ansi2png: render failed: Value out of allowed range." ++ LF);
    Clean]).
Proof. vm_compute. reflexivity. Qed.

Example run_with_failing_save :
  main Sample.header Sample.library ∅ ["ansi2png"; "art.ans"; ""]
    Sample.stack =
  (1, mk_locals (lib := Sample.library) 0 (mk_options 1 0 8 0 0 false),
   [Init 0; Loadfile "art.ans" 0; Ansi (mk_options 1 0 8 0 0 false) 0;
    Savefile "" (-1); Error "File error.";
    Fprintf stderr ("ansi2png: save failed: File error." ++ LF); Clean]).
Proof. vm_compute. reflexivity. Qed.

Example run_with_failing_init :
  main Sample.header Sample.broken Sample.environ Sample.argv
    Sample.broken_stack =
  (1, Sample.broken_stack,
   [Init (-1); Fprintf stderr ("ansi2png: init failed" ++ LF)]).
Proof. vm_compute. reflexivity. Qed.

Example run_with_extra_argument :
  main Sample.header Sample.library Sample.environ
    ["ansi2png"; "art.ans"; "art.png"; "more"] Sample.stack =
  (1, Sample.stack,
   [Fprintf stderr ("usage: ansi2png INPUT OUTPUT.png" ++ LF)]).
Proof. reflexivity. Qed.

Example cp437_in_three_spellings :
  List.map (lookup_font Sample.header)
    [Some "cp437"; Some "CP437"; Some "Cp437"; None] =
  [(1, []); (1, []); (1, []); (1, [])].
Proof. reflexivity. Qed.

Example strcasecmp_values :
  strcasecmp "Topaz_Plus" "TOPAZ_PLUS" = 0 /\
  strcasecmp "TOPAZ" "TOPAZ_PLUS" = -95 /\
  strcasecmp "cp437 " "CP437" = 32 /\
  strcmp "1" "1" = 0 /\ strcmp "1 " "1" = 32 /\ strcmp "01" "1" = -1.
Proof. repeat split. Qed.

Example icecolors_values :
  List.map
    (fun environ => icecolors (Sample.configured environ))
    [Sample.only "ANSILOVE_ICECOLORS" "1";
     Sample.only "ANSILOVE_ICECOLORS" "0";
     Sample.only "ANSILOVE_ICECOLORS" "true";
     Sample.only "ANSILOVE_ICECOLORS" "";
     Sample.only "ANSILOVE_ICECOLORS" "11";
     ∅] =
  [true; false; false; false; false; false].
Proof. vm_compute. reflexivity. Qed.

Example mode_values :
  List.map
    (fun environ => mode (Sample.configured environ))
    [Sample.only "ANSILOVE_MODE" "ced";
     Sample.only "ANSILOVE_MODE" "Transparent";
     Sample.only "ANSILOVE_MODE" "WORKBENCH";
     Sample.only "ANSILOVE_MODE" "workbench ";
     Sample.only "ANSILOVE_MODE" "";
     ∅] =
  [1; 2; 3; 0; 0; 0].
Proof. vm_compute. reflexivity. Qed.

Example atoi_values :
  List.map atoi ["42"; "  -7x"; "+9"; "12abc"; "abc"; ""; "- 5"; "0x10"] =
  [42; -7; 9; 12; 0; 0; 0; 0].
Proof. reflexivity. Qed.

Example scale_values :
  List.map
    (fun val =>
       scale_factor (Sample.configured (Sample.only "ANSILOVE_SCALE" val)))
    ["2"; "255"; "256"; "257"; "-1"; "two"] =
  [2; 255; 0; 1; 255; 0].
Proof. vm_compute. reflexivity. Qed.

Example columns_values :
  List.map
    (fun val =>
       columns (Sample.configured (Sample.only "ANSILOVE_COLUMNS" val)))
    ["80"; "32767"; "32768"; "65536"; "-70000"; "wide"] =
  [80; 32767; -32768; 0; -4464; 0].
Proof. vm_compute. reflexivity. Qed.

(** ** More about the run *)

Section Lifecycle.

Variable hdr : ansilove_h.
Variable lib : libansilove.

(** The paths through [main], with the trace written out on each. *)
Ltac run_cases environ argv l0 :=
  let H := fresh "Hrun" in
  let Hw := fresh "Hw" in
  let Hp := fresh "Hp" in
  pose proof (main_run hdr lib environ argv l0) as H;
  destruct (lookup_font_output hdr (getenv environ "ANSILOVE_FONT"))
    as [Hw | (?s & ?Hs & ?Hall & Hw)];
  rewrite Hw in *; clear Hw; simpl snd in *;
  remember (exit_code hdr lib environ argv l0) as code eqn:Hcode;
  remember (trace hdr lib environ argv l0) as t eqn:Ht;
  clear Hcode Ht;
  destruct H as [?Ha | ?Ha ?H0 | ?code ?t ?Ha ?H0 Hp];
  try destruct Hp; simpl app in *.

Ltac member H :=
  simpl In in H;
  repeat (destruct H as [H | H]; [try discriminate H | ]);
  try contradiction.

Ltac found_stage :=
  match goal with
  | |- stage_succeeded _ ?t =>
      match t with
      | context [Loadfile ?p ?r] =>
          exists (Loadfile p r), r;
          split; [simpl; auto 10 |];
          split; [exists p; reflexivity | assumption]
      | context [Ansi ?o ?r] =>
          exists (Ansi o r), r;
          split; [simpl; auto 10 |];
          split; [exists o; reflexivity | assumption]
      end
  end.

(** X1: the library is driven through its lifecycle and nothing else. A
    run makes no library call (usage error), or [ansilove_init] alone, or
    init, load, render, save in that order up to the first call that
    returns -1, then [ansilove_error] and [ansilove_clean]; or all four
    followed by [ansilove_clean]. Only the last of these exits 0. *)
Theorem library_calls_follow_lifecycle
    (environ : gmap string string) (argv : list string) (l0 : locals lib) :
  In (library_calls (trace hdr lib environ argv l0),
      exit_code hdr lib environ argv l0)
    [([], 1);
     ([init_call], 1);
     ([init_call; loadfile_call; error_call; clean_call], 1);
     ([init_call; loadfile_call; ansi_call; error_call; clean_call], 1);
     ([init_call; loadfile_call; ansi_call; savefile_call;
       error_call; clean_call], 1);
     ([init_call; loadfile_call; ansi_call; savefile_call; clean_call], 0)].
Proof.
  run_cases environ argv l0; cbn; auto 10.
Qed.

(** X2: the output path is handed to the library only after the load and
    render calls have succeeded, and it is [argv[2]]; the load call gets
    [argv[1]]. So a run whose load or render call returns -1 writes no
    file. *)
Theorem output_only_after_load_and_render
    (environ : gmap string string) (argv : list string) (l0 : locals lib) :
  (forall p r, In (Savefile p r) (trace hdr lib environ argv l0) ->
     p = arg argv 2 /\
     stage_succeeded Load (trace hdr lib environ argv l0) /\
     stage_succeeded Render (trace hdr lib environ argv l0)) /\
  (forall p r, In (Loadfile p r) (trace hdr lib environ argv l0) ->
     p = arg argv 1) /\
  (forall s e, s = Load \/ s = Render ->
     In e (trace hdr lib environ argv l0) -> stage_call s e (-1) ->
     files_written (trace hdr lib environ argv l0) = []).
Proof.
  run_cases environ argv l0; (split; [| split]).
  all: match goal with
       | |- forall p r, In (Savefile _ _) _ -> _ =>
           intros p r Hin; member Hin; inversion Hin; subst;
           (split; [reflexivity | split; found_stage])
       | |- forall p r, In (Loadfile _ _) _ -> _ =>
           intros p r Hin; member Hin; now inversion Hin
       | |- forall s e, _ =>
           intros st ev [-> | ->] Hin [x ->]; member Hin;
           inversion Hin; subst; first [contradiction | reflexivity]
       end.
Qed.

(** X3: a run that exits 0 prints nothing but what the font lookup
    prints; a run that exits 1 prints one more line after that, or the
    usage or init line alone. No run prints more than two lines, all on
    the error stream. *)
Theorem printed_lines
    (environ : gmap string string) (argv : list string) (l0 : locals lib) :
  (exit_code hdr lib environ argv l0 = 0 ->
     printed (trace hdr lib environ argv l0) =
       snd (lookup_font hdr (getenv environ "ANSILOVE_FONT"))) /\
  (exit_code hdr lib environ argv l0 = 1 ->
     exists text,
       printed (trace hdr lib environ argv l0) = [Fprintf stderr text] \/
       printed (trace hdr lib environ argv l0) =
         (snd (lookup_font hdr (getenv environ "ANSILOVE_FONT")) ++
          [Fprintf stderr text])%list) /\
  (List.length (printed (trace hdr lib environ argv l0)) <= 2)%nat.
Proof.
  pose proof (main_run hdr lib environ argv l0) as Hrun.
  destruct (lookup_font_output hdr (getenv environ "ANSILOVE_FONT"))
    as [Hw | (nm & Hnm & Hall & Hw)];
    rewrite Hw in *; clear Hw; simpl snd in *;
    remember (exit_code hdr lib environ argv l0) as code eqn:Hcode;
    remember (trace hdr lib environ argv l0) as t eqn:Ht;
    clear Hcode Ht;
    (destruct Hrun as [Ha | Ha H0 | code t Ha H0 Hp];
     [ | | destruct Hp]); simpl app; cbn [printed List.filter is_fprintf];
    (split; [| split]).
  all: match goal with
       | |- (_ <= _)%nat => simpl; lia
       | |- _ = 0 -> _ => intros Hc; first [discriminate Hc | reflexivity]
       | |- _ = 1 -> _ =>
           intros Hc; first [discriminate Hc | eexists; simpl; eauto]
       end.
Qed.

(** X4: the environment is read after [ansilove_init] has succeeded and
    not before: with a wrong argument count or a failing init the run is
    the same in every environment, so no font warning is printed then. *)
Theorem early_exit_ignores_environment
    (environ environ' : gmap string string) (argv : list string)
    (l0 : locals lib) :
  argc argv <> 3 \/ init_result lib l0 = -1 ->
  main hdr lib environ argv l0 = main hdr lib environ' argv l0.
Proof.
  intros Hearly. unfold main, bind.
  destruct (argc argv =? 3) eqn:Ea; [| reflexivity].
  apply Z.eqb_eq in Ea. destruct Hearly as [Hn | Hi]; [contradiction |].
  unfold init_result in Hi. cbn [negb]. cbv beta iota.
  destruct (call_init lib l0) as [[r0 l1] t0]. cbn [fst] in Hi.
  subst r0. reflexivity.
Qed.

End Lifecycle.

(** ** More about the environment block *)

Section Settings.

Variable hdr : ansilove_h.
Variable lib : libansilove.

Lemma font_map_scan_value (nm : string) (entries : list font_entry) (v : Z) :
  font_map_scan nm entries = Some v ->
  exists e, In e entries /\ value e = v.
Proof.
  induction entries as [|e0 rest IH]; simpl; [discriminate |].
  destruct (strcasecmp nm (name e0) =? 0).
  - intros Hv. inversion Hv. exists e0. split; [now left | reflexivity].
  - intros Hv. destruct (IH Hv) as (e & Hin & He).
    exists e. split; [now right | exact He].
Qed.

(** Environments that agree on the font lookup and on the other five
    variables give the same run of the block. *)
Lemma env_options_agree (environ environ' : gmap string string)
    (l : locals lib) :
  lookup_font hdr (getenv environ "ANSILOVE_FONT") =
    lookup_font hdr (getenv environ' "ANSILOVE_FONT") ->
  environ !! "ANSILOVE_SCALE" = environ' !! "ANSILOVE_SCALE" ->
  environ !! "ANSILOVE_BITS" = environ' !! "ANSILOVE_BITS" ->
  environ !! "ANSILOVE_COLUMNS" = environ' !! "ANSILOVE_COLUMNS" ->
  environ !! "ANSILOVE_MODE" = environ' !! "ANSILOVE_MODE" ->
  environ !! "ANSILOVE_ICECOLORS" = environ' !! "ANSILOVE_ICECOLORS" ->
  env_options hdr lib environ l = env_options hdr lib environ' l.
Proof.
  intros Hf Hs Hb Hc Hm Hi. rewrite !env_options_run. rewrite Hf.
  f_equal. f_equal. f_equal. apply resolved_agree; try assumption.
  - now rewrite Hf.
  - now rewrite !resolved_mode, Hm.
Qed.

(** X5: [main] reads the six [ANSILOVE_] variables and nothing else of
    the environment: two environments that agree on them give the same
    run, actions, exit code and locals. *)
Theorem run_depends_on_six_variables
    (environ environ' : gmap string string) (argv : list string)
    (l0 : locals lib) :
  (forall var, In var variables -> environ !! var = environ' !! var) ->
  main hdr lib environ argv l0 = main hdr lib environ' argv l0.
Proof.
  intros Hsame. apply main_env_options_congr. intros l.
  apply env_options_agree; unfold getenv;
    try (apply Hsame; unfold variables; simpl; auto 10).
  rewrite (Hsame "ANSILOVE_FONT"); [reflexivity | now left].
Qed.

(** X6: with none of the six variables set the options are the ones
    [ansilove_init] left, except the font: line 89 assigns it in any case,
    so the library's own default font is replaced by
    [ANSILOVE_FONT_CP437]. Nothing is printed, and these are the options
    the renderer is called with. *)
Theorem unset_variables_keep_defaults_but_font
    (environ : gmap string string) :
  (forall var, In var variables -> environ !! var = None) ->
  (forall l : locals lib,
     resolved hdr lib environ l =
       set_font (ANSILOVE_FONT_CP437 hdr) (options l) /\
     snd (env_options hdr lib environ l) = []) /\
  (forall argv (l0 : locals lib) o r,
     In (Ansi o r) (trace hdr lib environ argv l0) ->
     o = set_font (ANSILOVE_FONT_CP437 hdr) (options (after_init lib l0))).
Proof.
  intros Hnone.
  assert (Hf : environ !! "ANSILOVE_FONT" = None)
    by (apply Hnone; simpl; auto 10).
  assert (Hs : environ !! "ANSILOVE_SCALE" = None)
    by (apply Hnone; simpl; auto 10).
  assert (Hb : environ !! "ANSILOVE_BITS" = None)
    by (apply Hnone; simpl; auto 10).
  assert (Hc : environ !! "ANSILOVE_COLUMNS" = None)
    by (apply Hnone; simpl; auto 10).
  assert (Hm : environ !! "ANSILOVE_MODE" = None)
    by (apply Hnone; simpl; auto 10).
  assert (Hi : environ !! "ANSILOVE_ICECOLORS" = None)
    by (apply Hnone; simpl; auto 10).
  assert (Hblock : forall l : locals lib,
    resolved hdr lib environ l =
      set_font (ANSILOVE_FONT_CP437 hdr) (options l)).
  { intros l. apply options_eq.
    - rewrite resolved_font. unfold getenv. now rewrite Hf.
    - now rewrite resolved_scale_factor, Hs.
    - now rewrite resolved_bits, Hb.
    - now rewrite resolved_columns, Hc.
    - now rewrite resolved_mode, Hm.
    - now rewrite resolved_icecolors, Hi. }
  split.
  - intros l. split; [apply Hblock |].
    rewrite env_options_run. unfold getenv. now rewrite Hf.
  - intros argv l0 o r Hin.
    rewrite (render_options hdr lib environ argv l0 o r Hin).
    apply Hblock.
Qed.

(** X7: [ANSILOVE_ICECOLORS] can switch iCE colors on and never off: when
    the flag is set as the block starts, it is set as the block ends,
    whatever the environment holds. *)
Theorem icecolors_is_never_cleared
    (environ : gmap string string) (l : locals lib) :
  icecolors (options l) = true ->
  icecolors (resolved hdr lib environ l) = true.
Proof.
  intros Hon. rewrite resolved_icecolors, Hon.
  destruct (environ !! "ANSILOVE_ICECOLORS") as [val|]; [| reflexivity].
  now destruct (strcmp val "1" =? 0).
Qed.

(** X8: each field is decided by its own variable: two environments that
    agree on one of the six variables give that field the same value from
    the same starting options, whatever the other variables hold. The
    font name alone decides what the block prints. *)
Theorem fields_follow_their_own_variable
    (environ environ' : gmap string string) (l : locals lib) :
  (environ !! "ANSILOVE_FONT" = environ' !! "ANSILOVE_FONT" ->
     font (resolved hdr lib environ l) = font (resolved hdr lib environ' l) /\
     snd (env_options hdr lib environ l) =
       snd (env_options hdr lib environ' l)) /\
  (environ !! "ANSILOVE_SCALE" = environ' !! "ANSILOVE_SCALE" ->
     scale_factor (resolved hdr lib environ l) =
       scale_factor (resolved hdr lib environ' l)) /\
  (environ !! "ANSILOVE_BITS" = environ' !! "ANSILOVE_BITS" ->
     bits (resolved hdr lib environ l) = bits (resolved hdr lib environ' l)) /\
  (environ !! "ANSILOVE_COLUMNS" = environ' !! "ANSILOVE_COLUMNS" ->
     columns (resolved hdr lib environ l) =
       columns (resolved hdr lib environ' l)) /\
  (environ !! "ANSILOVE_MODE" = environ' !! "ANSILOVE_MODE" ->
     mode (resolved hdr lib environ l) = mode (resolved hdr lib environ' l)) /\
  (environ !! "ANSILOVE_ICECOLORS" = environ' !! "ANSILOVE_ICECOLORS" ->
     icecolors (resolved hdr lib environ l) =
       icecolors (resolved hdr lib environ' l)).
Proof.
  repeat (match goal with |- _ /\ _ => split end); intros Hsame.
  - split.
    + rewrite !resolved_font. unfold getenv. now rewrite Hsame.
    + rewrite !env_options_run. unfold getenv. now rewrite Hsame.
  - now rewrite !resolved_scale_factor, Hsame.
  - now rewrite !resolved_bits, Hsame.
  - now rewrite !resolved_columns, Hsame.
  - now rewrite !resolved_mode, Hsame.
  - now rewrite !resolved_icecolors, Hsame.
Qed.

(** X9: a number that fits the field is taken as it is: a scale or bits
    value that starts with a number from 0 to 255 sets the field to that
    number, and a column count from -32768 to 32767 likewise. *)
Theorem numbers_in_range_are_kept
    (environ : gmap string string) (l : locals lib) (val : string) :
  (environ !! "ANSILOVE_SCALE" = Some val ->
     0 <= parse_decimal val <= 255 ->
     scale_factor (resolved hdr lib environ l) = parse_decimal val) /\
  (environ !! "ANSILOVE_BITS" = Some val ->
     0 <= parse_decimal val <= 255 ->
     bits (resolved hdr lib environ l) = parse_decimal val) /\
  (environ !! "ANSILOVE_COLUMNS" = Some val ->
     - 32768 <= parse_decimal val <= 32767 ->
     columns (resolved hdr lib environ l) = parse_decimal val).
Proof.
  repeat (match goal with |- _ /\ _ => split end); intros Hv Hr.
  - rewrite resolved_scale_factor, Hv, atoi_in_range
      by (unfold INT_MIN, INT_MAX; lia).
    unfold to_uint8_t. apply Z.mod_small. lia.
  - rewrite resolved_bits, Hv, atoi_in_range
      by (unfold INT_MIN, INT_MAX; lia).
    unfold to_uint8_t. apply Z.mod_small. lia.
  - rewrite resolved_columns, Hv, atoi_in_range
      by (unfold INT_MIN, INT_MAX; lia).
    unfold to_int16_t. rewrite Z.mod_small; lia.
Qed.

(** X10: [lookup_font] returns the value of some entry of [font_map]
    for every argument, and prints at most one line. So the font the
    renderer is called with is always one of the table, whatever the
    environment holds and whatever font [ansilove_init] left. *)
Theorem font_is_always_from_the_table :
  (forall nm : option string,
     (exists e, In e (font_map hdr) /\ fst (lookup_font hdr nm) = value e) /\
     (List.length (snd (lookup_font hdr nm)) <= 1)%nat) /\
  (forall (environ : gmap string string) argv (l0 : locals lib) o r,
     In (Ansi o r) (trace hdr lib environ argv l0) ->
     exists e, In e (font_map hdr) /\ font o = value e).
Proof.
  assert (Hl : forall nm : option string,
    exists e, In e (font_map hdr) /\ fst (lookup_font hdr nm) = value e).
  { intros nm.
    assert (Hd : exists e, In e (font_map hdr) /\
                   ANSILOVE_FONT_CP437 hdr = value e).
    { exists (mk_font_entry "CP437" (ANSILOVE_FONT_CP437 hdr)).
      split; [now left | reflexivity]. }
    destruct nm as [s|]; [| exact Hd]. unfold lookup_font.
    destruct (font_map_scan s (font_map hdr)) as [v|] eqn:Es; [| exact Hd].
    destruct (font_map_scan_value s _ v Es) as (e & Hin & He).
    exists e. split; [exact Hin | now rewrite He]. }
  split.
  - intros nm. split; [apply Hl |].
    destruct nm as [s|]; [| simpl; lia]. unfold lookup_font.
    destruct (font_map_scan s (font_map hdr)); simpl; lia.
  - intros environ argv l0 o r Hin.
    rewrite (render_options hdr lib environ argv l0 o r Hin).
    rewrite resolved_font. apply Hl.
Qed.

(** X11: the spelling of a font name of the table does not show in the
    run: two environments that differ in the letter case of such a name
    only give the same actions, exit code and locals. *)
Theorem spelling_of_a_known_font_does_not_matter
    (environ : gmap string string) (e : font_entry) (s t : string)
    (argv : list string) (l0 : locals lib) :
  In e (font_map hdr) ->
  casefold s = casefold (name e) -> casefold t = casefold (name e) ->
  main hdr lib (<["ANSILOVE_FONT" := s]> environ) argv l0 =
  main hdr lib (<["ANSILOVE_FONT" := t]> environ) argv l0.
Proof.
  intros Hin Hs Ht. apply main_env_options_congr. intros l.
  apply env_options_agree; unfold getenv;
    rewrite ?lookup_insert_eq, ?lookup_insert_ne by discriminate;
    try reflexivity.
  rewrite (lookup_font_known hdr e s Hin Hs).
  now rewrite (lookup_font_known hdr e t Hin Ht).
Qed.

(** X12: a number outside the field wraps around, it is not clamped: a
    scale or bits value from -255 to -1 becomes that number plus 256, and
    a column count from 32768 to 65535 becomes that number minus 65536. *)
Theorem numbers_out_of_range_wrap
    (environ : gmap string string) (l : locals lib) (val : string) :
  (environ !! "ANSILOVE_SCALE" = Some val ->
     - 255 <= parse_decimal val <= - 1 ->
     scale_factor (resolved hdr lib environ l) = parse_decimal val + 256) /\
  (environ !! "ANSILOVE_BITS" = Some val ->
     - 255 <= parse_decimal val <= - 1 ->
     bits (resolved hdr lib environ l) = parse_decimal val + 256) /\
  (environ !! "ANSILOVE_COLUMNS" = Some val ->
     32768 <= parse_decimal val <= 65535 ->
     columns (resolved hdr lib environ l) = parse_decimal val - 65536).
Proof.
  repeat (match goal with |- _ /\ _ => split end); intros Hv Hr.
  - rewrite resolved_scale_factor, Hv, atoi_in_range
      by (unfold INT_MIN, INT_MAX; lia).
    unfold to_uint8_t.
    rewrite <- (Z_mod_plus_full (parse_decimal val) 1 (2 ^ 8)).
    apply Z.mod_small. lia.
  - rewrite resolved_bits, Hv, atoi_in_range
      by (unfold INT_MIN, INT_MAX; lia).
    unfold to_uint8_t.
    rewrite <- (Z_mod_plus_full (parse_decimal val) 1 (2 ^ 8)).
    apply Z.mod_small. lia.
  - rewrite resolved_columns, Hv, atoi_in_range
      by (unfold INT_MIN, INT_MAX; lia).
    unfold to_int16_t.
    replace (parse_decimal val + 2 ^ 15)
      with (parse_decimal val - 2 ^ 15 + 1 * 2 ^ 16) by lia.
    rewrite Z_mod_plus_full, Z.mod_small; lia.
Qed.

End Settings.

(** ** These theorems on the sample library *)

Lemma output_only_after_load_and_render_witness :
  files_written
    (trace Sample.header Sample.library Sample.garbled Sample.argv
       Sample.stack) = [].
Proof.
  apply (proj2 (proj2 (output_only_after_load_and_render Sample.header
           Sample.library Sample.garbled Sample.argv Sample.stack))
           Render (Ansi (mk_options 1 0 8 (-4464) 0 false) (-1))).
  - now right.
  - vm_compute. auto 10.
  - exists (mk_options 1 0 8 (-4464) 0 false). reflexivity.
Defined.

Lemma printed_lines_witness :
  printed
    (trace Sample.header Sample.library Sample.environ Sample.argv
       Sample.stack) = [].
Proof.
  apply (proj1 (printed_lines Sample.header Sample.library Sample.environ
                  Sample.argv Sample.stack)).
  vm_compute. reflexivity.
Defined.

Lemma early_exit_ignores_environment_witness :
  main Sample.header Sample.broken Sample.garbled Sample.argv
    Sample.broken_stack =
  main Sample.header Sample.broken ∅ Sample.argv Sample.broken_stack.
Proof.
  apply (early_exit_ignores_environment Sample.header Sample.broken
           Sample.garbled ∅ Sample.argv Sample.broken_stack).
  right. reflexivity.
Defined.

Lemma run_depends_on_six_variables_witness :
  main Sample.header Sample.library
    (<["HOME" := "/root"]> Sample.environ) Sample.argv Sample.stack =
  main Sample.header Sample.library Sample.environ Sample.argv Sample.stack.
Proof.
  apply (run_depends_on_six_variables Sample.header Sample.library
           (<["HOME" := "/root"]> Sample.environ) Sample.environ
           Sample.argv Sample.stack).
  intros var Hin. unfold variables in Hin. simpl In in Hin.
  repeat (destruct Hin as [<- | Hin]; [vm_compute; reflexivity |]).
  destruct Hin.
Defined.

Lemma unset_variables_keep_defaults_but_font_witness :
  resolved Sample.header Sample.library (Sample.only "HOME" "/root")
    (after_init Sample.library Sample.stack) =
  mk_options 1 0 8 0 0 false.
Proof.
  apply (proj1 (unset_variables_keep_defaults_but_font Sample.header
                  Sample.library (Sample.only "HOME" "/root")
                  ltac:(intros var Hin; unfold variables in Hin;
                        simpl In in Hin;
                        repeat (destruct Hin as [<- | Hin];
                                [vm_compute; reflexivity |]);
                        destruct Hin))
           (after_init Sample.library Sample.stack)).
Defined.

Lemma icecolors_is_never_cleared_witness :
  icecolors
    (resolved Sample.header Sample.library
       (Sample.only "ANSILOVE_ICECOLORS" "0") Sample.stack) = true.
Proof.
  apply (icecolors_is_never_cleared Sample.header Sample.library
           (Sample.only "ANSILOVE_ICECOLORS" "0") Sample.stack).
  reflexivity.
Defined.

Lemma fields_follow_their_own_variable_witness :
  scale_factor
    (resolved Sample.header Sample.library Sample.garbled Sample.stack) =
  scale_factor
    (resolved Sample.header Sample.library
       (Sample.only "ANSILOVE_SCALE" "big") Sample.stack).
Proof.
  apply (proj1 (proj2 (fields_follow_their_own_variable Sample.header
           Sample.library Sample.garbled
           (Sample.only "ANSILOVE_SCALE" "big") Sample.stack))).
  vm_compute. reflexivity.
Defined.

Lemma numbers_in_range_are_kept_witness :
  columns
    (resolved Sample.header Sample.library Sample.environ Sample.stack) =
  160.
Proof.
  apply (proj2 (proj2 (numbers_in_range_are_kept Sample.header
           Sample.library Sample.environ Sample.stack "160"))).
  - vm_compute. reflexivity.
  - vm_compute. split; discriminate.
Defined.

Lemma font_is_always_from_the_table_witness :
  exists e,
    In e (font_map Sample.header) /\
    font (mk_options 34 0 9 160 1 true) = value e.
Proof.
  apply (proj2 (font_is_always_from_the_table Sample.header Sample.library)
           Sample.environ Sample.argv Sample.stack
           (mk_options 34 0 9 160 1 true) 0).
  vm_compute. auto 10.
Defined.

Lemma spelling_of_a_known_font_does_not_matter_witness :
  main Sample.header Sample.library
    (<["ANSILOVE_FONT" := "Topaz_Plus"]> Sample.garbled) Sample.argv
    Sample.stack =
  main Sample.header Sample.library
    (<["ANSILOVE_FONT" := "TOPAZ_PLUS"]> Sample.garbled) Sample.argv
    Sample.stack.
Proof.
  apply (spelling_of_a_known_font_does_not_matter Sample.header
           Sample.library Sample.garbled
           (mk_font_entry "TOPAZ_PLUS" 35) "Topaz_Plus" "TOPAZ_PLUS"
           Sample.argv Sample.stack).
  - vm_compute. auto 30.
  - reflexivity.
  - reflexivity.
Defined.

Lemma numbers_out_of_range_wrap_witness :
  columns
    (resolved Sample.header Sample.library
       (Sample.only "ANSILOVE_COLUMNS" "40000") Sample.stack) = -25536.
Proof.
  apply (proj2 (proj2 (numbers_out_of_range_wrap Sample.header
           Sample.library (Sample.only "ANSILOVE_COLUMNS" "40000")
           Sample.stack "40000"))).
  - vm_compute. reflexivity.
  - vm_compute. split; discriminate.
Defined.
